(** * Weld-Parameters-and-Scenarios: the recommendation engine

    A shallow embedding of [weldingKnowledge.getRecommendations]
    (src/weldingKnowledge.js, lines 367-496) together with the part of
    the knowledge base it reads, the [electrodeSize] amperage tables
    (lines 71-108).

    The source is JavaScript, so the embedding keeps three things that
    JavaScript does and a naive reading of the code forgets:

    - numbers are IEEE-754 binary64 values.  They are modelled by the
      Standard Library's [spec_float] at precision 53 and maximal
      exponent 1024, so [0.4] is the double nearest to 4/10 and every
      [+], [-], [*] rounds to nearest-even;
    - a property read [o[k]] on an object literal also finds what the
      object inherits from [Object.prototype];
    - calling a method that a value does not have, or reading a property
      of [undefined], throws a [TypeError]. *)

From Stdlib Require Import ZArith List String Ascii Bool Lia.
From Stdlib Require Import Floats.SpecFloat.
From Stdlib Require DecimalString.
Import ListNotations.

Local Open Scope string_scope.
Local Open Scope Z_scope.

(** ** The fragment of JavaScript the engine uses *)

Module JS.

(** *** Completions

    A call either returns normally or throws.  The only exception the
    engine can meet is a [TypeError]. *)

Inductive completion (A : Type) : Type :=
| Normal (a : A)
| TypeError.

Arguments Normal {A} a.
Arguments TypeError {A}.

Definition bind {A B : Type} (c : completion A) (k : A -> completion B)
  : completion B :=
  match c with
  | Normal a => k a
  | TypeError => TypeError
  end.

(** *** Numbers *)

Definition number : Type := spec_float.

Definition prec : Z := 53.
Definition emax : Z := 1024.

Definition NaN : number := S754_nan.

(** The Number nearest to a mathematical integer. *)
Definition of_Z (z : Z) : number := binary_normalize prec emax z 0 false.

Definition add : number -> number -> number := SFadd prec emax.
Definition sub : number -> number -> number := SFsub prec emax.
Definition mul : number -> number -> number := SFmul prec emax.
Definition div : number -> number -> number := SFdiv prec emax.
Definition ltb : number -> number -> bool := SFltb.

(** The literals [0.4] and [0.6] denote the doubles nearest to 4/10
    and 6/10; a correctly rounded division of exact operands yields
    exactly those. *)
Definition lit_0_4 : number := Eval vm_compute in div (of_Z 4) (of_Z 10).
Definition lit_0_6 : number := Eval vm_compute in div (of_Z 6) (of_Z 10).

(** What [Math.round] returns: an integral Number, [NaN] or an
    infinity.  (The sign of a zero result is dropped: it prints as
    ["0"] either way.) *)
Inductive rounded : Type :=
| RInt (z : Z)
| RNaN
| RInfinity (negative : bool).

(** [Math.round x] is the integer closest to [x], ties going towards
    plus infinity: the floor of [x + 1/2], taken exactly.  For
    [x = n * 2^e] with [e < 0] that is [n] shifted right by [-e - 1]
    places, plus one, halved (see [Math_round_floor]). *)
Definition Math_round (x : number) : rounded :=
  match x with
  | S754_zero _ => RInt 0
  | S754_infinity s => RInfinity s
  | S754_nan => RNaN
  | S754_finite s m e =>
      let n := if s then Z.neg m else Z.pos m in
      RInt (if 0 <=? e then Z.shiftl n e
            else Z.div2 (Z.shiftr n (- e - 1) + 1))
  end.

(** *** Strings *)

(** The double-quote character (code 34) on its own. *)
Definition dquote : string := String (ascii_of_nat 34) EmptyString.

Definition string_of_Z (z : Z) : string :=
  DecimalString.NilEmpty.string_of_int (Z.to_int z).

(** [String(Math.round x)] as the template literal computes it.  The
    integers the engine prints are amperages (see [printed_amperages]
    below), far from the 1e21 at which JavaScript switches to
    exponent notation. *)
Definition to_string (r : rounded) : string :=
  match r with
  | RInt z => string_of_Z z
  | RNaN => "NaN"
  | RInfinity false => "Infinity"
  | RInfinity true => "-Infinity"
  end.

(** [s.split(sep)] for a one-character separator. *)
Fixpoint split_aux (sep : ascii) (cur : string) (s : string) : list string :=
  match s with
  | EmptyString => [cur]
  | String c rest =>
      if Ascii.eqb c sep then cur :: split_aux sep EmptyString rest
      else split_aux sep (cur ++ String c EmptyString) rest
  end.

Definition split (s : string) (sep : ascii) : list string :=
  split_aux sep EmptyString s.

(** [parseInt(s)] with no radix: leading white space, an optional
    sign, then the longest run of decimal digits (hexadecimal ones
    after [0x] or [0X]); [NaN] when there is no digit.  White space is
    the ASCII part of what JavaScript skips; the tables hold none. *)
Definition is_space (c : ascii) : bool :=
  let n := nat_of_ascii c in
  ((9 <=? n) && (n <=? 13))%nat || (n =? 32)%nat.

Fixpoint trim_start (s : string) : string :=
  match s with
  | String c rest => if is_space c then trim_start rest else s
  | EmptyString => s
  end.

Definition digit_value (c : ascii) : option Z :=
  let n := Z.of_nat (nat_of_ascii c) in
  if (48 <=? n) && (n <=? 57) then Some (n - 48)
  else if (97 <=? n) && (n <=? 122) then Some (n - 87)
  else if (65 <=? n) && (n <=? 90) then Some (n - 55)
  else None.

(** The digits read so far are [acc]; [seen] says whether there was
    one. *)
Fixpoint digits (radix : Z) (s : string) (seen : bool) (acc : Z)
  : option Z :=
  match s with
  | String c rest =>
      match digit_value c with
      | Some d =>
          if d <? radix then digits radix rest true (acc * radix + d)
          else if seen then Some acc else None
      | None => if seen then Some acc else None
      end
  | EmptyString => if seen then Some acc else None
  end.

Definition strip_sign (s : string) : bool * string :=
  match s with
  | String "-"%char rest => (true, rest)
  | String "+"%char rest => (false, rest)
  | _ => (false, s)
  end.

Definition strip_radix (s : string) : Z * string :=
  match s with
  | String "0"%char (String "x"%char rest) => (16, rest)
  | String "0"%char (String "X"%char rest) => (16, rest)
  | _ => (10, s)
  end.

Definition parseInt (s : string) : number :=
  let '(negative, s1) := strip_sign (trim_start s) in
  let '(radix, s2) := strip_radix s1 in
  match digits radix s2 false 0 with
  | None => NaN
  | Some n =>
      if negative then binary_normalize prec emax (- n) 0 true
      else of_Z n
  end.

(** *** Objects used as tables

    An object literal is a list of its own properties, in source
    order.  A read [o[k]] answers with the own property when there is
    one; otherwise it goes to [Object.prototype], whose twelve
    properties are all functions or objects: truthy values that are
    not strings and carry no property of the tables. *)

Definition object (A : Type) : Type := list (string * A).

Definition Object_prototype : list string :=
  [ "constructor"; "hasOwnProperty"; "isPrototypeOf";
    "propertyIsEnumerable"; "toLocaleString"; "toString"; "valueOf";
    "__proto__"; "__defineGetter__"; "__defineSetter__";
    "__lookupGetter__"; "__lookupSetter__" ].

Inductive property (A : Type) : Type :=
| Own (a : A)
| Inherited
| Undefined.

Arguments Own {A} a.
Arguments Inherited {A}.
Arguments Undefined {A}.

Fixpoint own {A : Type} (o : object A) (k : string) : option A :=
  match o with
  | [] => None
  | (k', a) :: rest => if String.eqb k k' then Some a else own rest k
  end.

Definition inherited (k : string) : bool :=
  existsb (String.eqb k) Object_prototype.

Definition get {A : Type} (o : object A) (k : string) : property A :=
  match own o k with
  | Some a => Own a
  | None => if inherited k then Inherited else Undefined
  end.

(** [Object.keys(o)]: the own keys in creation order (none of the keys
    of the tables is an array index, which would come first). *)
Definition keys {A : Type} (o : object A) : list string := map fst o.

(** [a[i]] for an array and an integer index: [undefined] outside. *)
Definition index {A : Type} (a : list A) (i : Z) : option A :=
  if i <? 0 then None else nth_error a (Z.to_nat i).

End JS.

(** ** The data the engine reads and writes *)

(** The parameter snapshot handed to [getRecommendations].  The six
    parameters are strings; an observation that the caller leaves out is
    [None] and takes its default in the destructuring at lines 369-380. *)
Module Inputs.

Record t : Type := {
  electrode : string;
  electrodeSize : string;
  position : string;
  metalThickness : string;
  jointType : string;
  machineType : string;
  observedPuddle : option string;
  observedSpread : option string;
  observedTieIn : option string;
  observedStability : option string
}.

End Inputs.

(** One entry of the [electrodes] table (lines 14-68). *)
Module ElectrodeData.

Record t : Type := {
  current : string;
  penetration : string;
  slag : string;
  positions : list string;
  bestUse : string;
  tensileStrength : string;
  arcForce : string;
  puddleVisibility : string;
  techniqueOptions : list string
}.

End ElectrodeData.

(** One entry of the [positions] table (lines 111-145). *)
Module PositionData.

Record t : Type := {
  gravity : string;
  amperage : string;
  techniques : string;
  challenges : string;
  rodAngle : string
}.

End PositionData.

(** One entry of the [metalThickness] table (lines 149-169). *)
Module ThicknessData.

Record t : Type := {
  amperage : string;
  penetration : string;
  heatDissipation : string;
  rodSelection : string;
  technique : string
}.

End ThicknessData.

(** One entry of the [jointTypes] table (lines 173-200). *)
Module JointData.

Record t : Type := {
  preparation : string;
  penetration : string;
  technique : string;
  commonIssues : string;
  rodAngle : string
}.

End JointData.

(** One entry of the [electrodeSize] table (lines 72-107). *)
Module SizeData.

Record t : Type := {
  amperage : JS.object string;
  control : string;
  deposition : string;
  bestFor : string
}.

End SizeData.

(** The record built at lines 383-390 and returned at line 495.  An
    unset field is the empty string or the empty list. *)
Record recommendations : Type := {
  amperage : string;
  arcGap : string;
  rodAngle : string;
  travelSpeed : string;
  motionPattern : list string;
  adjustments : list string
}.

Definition set_amperage (r : recommendations) (v : string) : recommendations :=
  {| amperage := v; arcGap := arcGap r; rodAngle := rodAngle r;
     travelSpeed := travelSpeed r; motionPattern := motionPattern r;
     adjustments := adjustments r |}.

Definition set_arcGap (r : recommendations) (v : string) : recommendations :=
  {| amperage := amperage r; arcGap := v; rodAngle := rodAngle r;
     travelSpeed := travelSpeed r; motionPattern := motionPattern r;
     adjustments := adjustments r |}.

Definition set_rodAngle (r : recommendations) (v : string) : recommendations :=
  {| amperage := amperage r; arcGap := arcGap r; rodAngle := v;
     travelSpeed := travelSpeed r; motionPattern := motionPattern r;
     adjustments := adjustments r |}.

Definition set_travelSpeed (r : recommendations) (v : string) : recommendations :=
  {| amperage := amperage r; arcGap := arcGap r; rodAngle := rodAngle r;
     travelSpeed := v; motionPattern := motionPattern r;
     adjustments := adjustments r |}.

(** [r.motionPattern.push(v1, ..., vn)] *)
Definition push_motionPattern (r : recommendations) (vs : list string)
  : recommendations :=
  {| amperage := amperage r; arcGap := arcGap r; rodAngle := rodAngle r;
     travelSpeed := travelSpeed r; motionPattern := motionPattern r ++ vs;
     adjustments := adjustments r |}.

(** [r.adjustments.push(v)] *)
Definition push_adjustments (r : recommendations) (v : string)
  : recommendations :=
  {| amperage := amperage r; arcGap := arcGap r; rodAngle := rodAngle r;
     travelSpeed := travelSpeed r; motionPattern := motionPattern r;
     adjustments := adjustments r ++ [v] |}.

(** The keys that carry a double quote, spelled once. *)
Definition size_3_32 : string := "3/32" ++ JS.dquote.
Definition size_1_8 : string := "1/8" ++ JS.dquote.
Definition size_5_32 : string := "5/32" ++ JS.dquote.
Definition Thin : string := "Thin (<1/8" ++ JS.dquote ++ ")".
Definition Medium : string :=
  "Medium (1/8" ++ JS.dquote ++ "-3/16" ++ JS.dquote ++ ")".
Definition Thick : string := "Thick (>3/16" ++ JS.dquote ++ ")".

(** ** The knowledge base and its recommendation logic *)

Module weldingKnowledge.

Import JS.

(** Lines 13-69. *)
Definition electrodes : object ElectrodeData.t := [
    ("E6010",
     {| ElectrodeData.current := "DC+";
        ElectrodeData.penetration := "Deep";
        ElectrodeData.slag := "Light, fast-freeze";
        ElectrodeData.positions :=
          [ "Flat"; "Horizontal"; "Vertical Up"; "Vertical Down"; "Overhead" ];
        ElectrodeData.bestUse := "Root passes, dirty metal, repair work";
        ElectrodeData.tensileStrength := "60,000 psi";
        ElectrodeData.arcForce := "Strong";
        ElectrodeData.puddleVisibility := "Excellent";
        ElectrodeData.techniqueOptions :=
          [ "Circular"; "Zigzag"; "Whip/Step" ] |});
    ("E6011",
     {| ElectrodeData.current := "AC or DC+";
        ElectrodeData.penetration := "Deep";
        ElectrodeData.slag := "Light, fast-freeze";
        ElectrodeData.positions :=
          [ "Flat"; "Horizontal"; "Vertical Up"; "Vertical Down"; "Overhead" ];
        ElectrodeData.bestUse := "Similar to 6010 but works on AC";
        ElectrodeData.tensileStrength := "60,000 psi";
        ElectrodeData.arcForce := "Strong";
        ElectrodeData.puddleVisibility := "Excellent";
        ElectrodeData.techniqueOptions :=
          [ "Circular"; "Zigzag"; "Whip/Step" ] |});
    ("E6013",
     {| ElectrodeData.current := "AC, DC+ or DC-";
        ElectrodeData.penetration := "Moderate";
        ElectrodeData.slag := "Medium";
        ElectrodeData.positions :=
          [ "Flat"; "Horizontal"; "Vertical Up"; "Vertical Down"; "Overhead" ];
        ElectrodeData.bestUse :=
          "General purpose, sheet metal, easier to use";
        ElectrodeData.tensileStrength := "60,000 psi";
        ElectrodeData.arcForce := "Mild";
        ElectrodeData.puddleVisibility := "Partial (top edge covered)";
        ElectrodeData.techniqueOptions :=
          [ "Straight"; "Slight side-to-side" ] |});
    ("E7018",
     {| ElectrodeData.current := "AC or DC+";
        ElectrodeData.penetration := "Moderate";
        ElectrodeData.slag := "Heavy with iron powder";
        ElectrodeData.positions :=
          [ "Flat"; "Horizontal"; "Vertical Up"; "Overhead" ];
        ElectrodeData.bestUse :=
          "High quality, low hydrogen, stress applications";
        ElectrodeData.tensileStrength := "70,000 psi";
        ElectrodeData.arcForce := "Mild";
        ElectrodeData.puddleVisibility := "Limited (mostly covered by slag)";
        ElectrodeData.techniqueOptions := [ "Straight"; "Side-to-side" ] |});
    ("E7024",
     {| ElectrodeData.current := "AC or DC+";
        ElectrodeData.penetration := "Shallow";
        ElectrodeData.slag := "Very heavy";
        ElectrodeData.positions := [ "Flat"; "Horizontal fillet" ];
        ElectrodeData.bestUse := "High deposition rate, flat work";
        ElectrodeData.tensileStrength := "70,000 psi";
        ElectrodeData.arcForce := "Mild";
        ElectrodeData.puddleVisibility := "Limited";
        ElectrodeData.techniqueOptions := [ "Straight" ] |}) ].

(** Lines 71-108. *)
Definition electrodeSize : object SizeData.t :=
  [ (size_3_32,
     {| SizeData.amperage :=
          [ ("E6010", "40-80A"); ("E6011", "40-80A"); ("E6013", "40-80A");
            ("E7018", "65-110A"); ("E7024", "100-145A") ];
        SizeData.control := "Excellent";
        SizeData.deposition := "Low";
        SizeData.bestFor := "Thin metal, out-of-position, root passes" |});
    (size_1_8,
     {| SizeData.amperage :=
          [ ("E6010", "75-130A"); ("E6011", "75-130A"); ("E6013", "70-110A");
            ("E7018", "100-150A"); ("E7024", "140-190A") ];
        SizeData.control := "Good";
        SizeData.deposition := "Medium";
        SizeData.bestFor := "General purpose, most common size" |});
    (size_5_32,
     {| SizeData.amperage :=
          [ ("E6010", "110-170A"); ("E6011", "100-160A"); ("E6013", "110-160A");
            ("E7018", "140-215A"); ("E7024", "180-250A") ];
        SizeData.control := "Fair";
        SizeData.deposition := "High";
        SizeData.bestFor := "Thicker metal, flat position, filling passes" |}) ].

(** Lines 110-146. *)
Definition positions : object PositionData.t := [
    ("Flat",
     {| PositionData.gravity := "Helps control puddle";
        PositionData.amperage := "Standard/high range";
        PositionData.techniques := "All techniques viable";
        PositionData.challenges := "Minimal";
        PositionData.rodAngle := "45-90° from horizontal" |});
    ("Horizontal",
     {| PositionData.gravity := "Causes puddle to sag downward";
        PositionData.amperage := "Standard range";
        PositionData.techniques := "Control puddle with angle and speed";
        PositionData.challenges := "Preventing excessive buildup on bottom";
        PositionData.rodAngle :=
          "Point up slightly, nearly perpendicular to weld" |});
    ("Vertical Down",
     {| PositionData.gravity := "Pulls puddle in direction of travel";
        PositionData.amperage := "Standard/slightly higher";
        PositionData.techniques := "Fast travel, control with angle";
        PositionData.challenges := "Ensuring adequate penetration";
        PositionData.rodAngle := "Angle up slightly" |});
    ("Vertical Up",
     {| PositionData.gravity := "Pulls puddle against direction of travel";
        PositionData.amperage := "Slightly lower";
        PositionData.techniques := "Side-to-side, step, or weave";
        PositionData.challenges := "Preventing puddle fallout";
        PositionData.rodAngle := "Angle up to prevent blowout" |});
    ("Overhead",
     {| PositionData.gravity := "Pulls puddle away from workpiece";
        PositionData.amperage := "Standard range";
        PositionData.techniques := "Short arc, consistent motion";
        PositionData.challenges := "Keeping puddle in place, spatter";
        PositionData.rodAngle :=
          "Nearly perpendicular, slight angle into travel" |}) ].

(** Lines 148-170. *)
Definition metalThickness : object ThicknessData.t := [
    (Thin,
     {| ThicknessData.amperage := "Lower end of range";
        ThicknessData.penetration := "Watch for burn-through";
        ThicknessData.heatDissipation := "Quick to overheat";
        ThicknessData.rodSelection := "Smaller diameter";
        ThicknessData.technique := "Fast travel, possibly vertical down" |});
    (Medium,
     {| ThicknessData.amperage := "Mid-range";
        ThicknessData.penetration := "Good balance available";
        ThicknessData.heatDissipation := "Moderate";
        ThicknessData.rodSelection :=
          "Standard 1/8" ++ JS.dquote ++ " works well";
        ThicknessData.technique := "Standard approach for position" |});
    (Thick,
     {| ThicknessData.amperage := "Upper range";
        ThicknessData.penetration := "May require beveling/multiple passes";
        ThicknessData.heatDissipation := "Slow, acts as heat sink";
        ThicknessData.rodSelection := "Larger diameter advantageous";
        ThicknessData.technique := "Slower travel, possible weave" |}) ].

(** Lines 172-201. *)
Definition jointTypes : object JointData.t := [
    ("Butt",
     {| JointData.preparation := "Square edges or beveled for thick metal";
        JointData.penetration := "Critical for strength";
        JointData.technique := "Focus on root fusion";
        JointData.commonIssues := "Burn-through, lack of penetration";
        JointData.rodAngle := "Nearly perpendicular" |});
    ("Lap",
     {| JointData.preparation := "Clean mating surfaces";
        JointData.penetration := "Focus on fusing to bottom piece";
        JointData.technique := "Balance heat between pieces";
        JointData.commonIssues := "Insufficient fusion to bottom piece";
        JointData.rodAngle := "45° pointing into corner" |});
    ("T",
     {| JointData.preparation := "Clean mating surfaces";
        JointData.penetration := "Focus on root fusion";
        JointData.technique := "Angle to balance heat";
        JointData.commonIssues := "Lack of fusion at root";
        JointData.rodAngle := "45° pointing into corner" |});
    ("Corner",
     {| JointData.preparation := "Can be open or closed corner";
        JointData.penetration := "Must reach inner corner";
        JointData.technique := "Balance heat between pieces";
        JointData.commonIssues := "Inside corner penetration";
        JointData.rodAngle := "Bisect the angle" |}) ].

(** Line 401: [range.split('-').map(a => parseInt(a))] destructured into
    [[min, max]].  A missing element is [undefined], which every later
    use ([-], [+], [Math.round]) turns into [NaN]. *)
Definition parseRange (range : string) : number * number :=
  let parts := map parseInt (split range "-"%char) in
  (nth 0 parts NaN, nth 1 parts NaN).

(** Lines 404-408: adjust for metal thickness. *)
Definition adjustThickness (metalThickness : string) (range : number * number)
  : number * number :=
  let '(min, max) := range in
  if String.eqb metalThickness Thin then
    (min, add min (mul (sub max min) lit_0_4))
  else if String.eqb metalThickness Thick then
    (add min (mul (sub max min) lit_0_6), max)
  else (min, max).

(** Lines 411-415: adjust for position. *)
Definition adjustPosition (position : string) (range : number * number)
  : number * number :=
  let '(min, max) := range in
  if String.eqb position "Vertical Up" then (min, sub max (of_Z 5))
  else if String.eqb position "Overhead" then (min, sub max (of_Z 3))
  else (min, max).

(** The range as it stands when line 417 rounds it: thickness first,
    position second. *)
Definition adjustedRange (range metalThickness position : string)
  : number * number :=
  adjustPosition position (adjustThickness metalThickness (parseRange range)).

Definition roundedRange (range metalThickness position : string)
  : rounded * rounded :=
  let '(min, max) := adjustedRange range metalThickness position in
  (Math_round min, Math_round max).

(** Line 417: the template literal. *)
Definition formatRange (bounds : rounded * rounded) : string :=
  to_string (fst bounds) ++ "-" ++ to_string (snd bounds) ++ "A".

Definition truthy (s : string) : bool :=
  match s with EmptyString => false | _ => true end.

(** Lines 400-418: calculate the amperage range.

    [sizeData && sizeData.amperage[electrode]]: when [sizeData] is
    inherited from [Object.prototype] it is truthy and has no
    [amperage], so reading [[electrode]] of [undefined] throws; when the
    amperage entry is inherited it is truthy and has no [split]. *)
Definition amperageStep (inputs : Inputs.t) (r : recommendations)
  : completion recommendations :=
  match get electrodeSize (Inputs.electrodeSize inputs) with
  | Undefined => Normal r
  | Inherited => TypeError
  | Own sizeData =>
      match get (SizeData.amperage sizeData) (Inputs.electrode inputs) with
      | Undefined => Normal r
      | Inherited => TypeError
      | Own range =>
          if truthy range then
            Normal (set_amperage r
                      (formatRange
                         (roundedRange range (Inputs.metalThickness inputs)
                            (Inputs.position inputs))))
          else Normal r
      end
  end.

(** Lines 421-429: rod angle recommendation. *)
Definition rodAngleStep (inputs : Inputs.t) (r : recommendations)
  : recommendations :=
  let position := Inputs.position inputs in
  let jointType := Inputs.jointType inputs in
  if String.eqb jointType "Butt" then
    set_rodAngle r
      (if String.eqb position "Flat" then "Perpendicular"
       else if String.eqb position "Vertical Up" then "45° angled up slightly"
       else if String.eqb position "Overhead" then "Nearly perpendicular"
       else "45°")
  else if String.eqb jointType "Lap" || String.eqb jointType "T" then
    set_rodAngle r "45° into corner"
  else if String.eqb jointType "Corner" then
    set_rodAngle r "Bisect the corner angle"
  else r.

(** Lines 432-446: position-specific adjustments. *)
Definition positionStep (inputs : Inputs.t) (r : recommendations)
  : recommendations :=
  let position := Inputs.position inputs in
  let electrode := Inputs.electrode inputs in
  if String.eqb position "Vertical Down" then
    set_rodAngle (set_travelSpeed r "Fast") "Angle up slightly to hold puddle"
  else if String.eqb position "Vertical Up" then
    let r := set_travelSpeed r "Medium-slow, steady" in
    if String.eqb electrode "E7018" then
      push_motionPattern r ["Side-to-side"]
    else if String.eqb electrode "E6010" || String.eqb electrode "E6011" then
      push_motionPattern (push_motionPattern r ["Step/Whip"]) ["Circular"]
    else r
  else if String.eqb position "Horizontal" then
    set_travelSpeed (set_rodAngle r "Angle up slightly to control puddle")
      "Medium-fast to prevent sagging"
  else r.

(** [if (!r.motionPattern.length) r.motionPattern.push(...)] *)
Definition push_if_empty (r : recommendations) (vs : list string)
  : recommendations :=
  match motionPattern r with
  | [] => push_motionPattern r vs
  | _ :: _ => r
  end.

(** Lines 449-468: electrode-specific recommendations. *)
Definition electrodeStep (inputs : Inputs.t) (r : recommendations)
  : recommendations :=
  let electrode := Inputs.electrode inputs in
  if String.eqb electrode "E6010" || String.eqb electrode "E6011" then
    push_if_empty (set_arcGap r "Medium") ["Circular"; "Zigzag"; "Whip/Step"]
  else if String.eqb electrode "E6013" then
    push_if_empty (set_arcGap r "Short to medium")
      ["Straight"; "Slight side-to-side"]
  else if String.eqb electrode "E7018" then
    push_if_empty
      (push_adjustments (set_arcGap r "Short")
         "Keep arc in puddle, don't let slag get ahead")
      ["Straight"; "Side-to-side"]
  else if String.eqb electrode "E7024" then
    push_motionPattern (set_arcGap r "Short") ["Straight"]
  else r.

Definition default (d : string) (o : option string) : string :=
  match o with Some v => v | None => d end.

(** Lines 471-493: adjust based on observed puddle behavior. *)
Definition observationStep (inputs : Inputs.t) (r : recommendations)
  : recommendations :=
  let electrode := Inputs.electrode inputs in
  let machineType := Inputs.machineType inputs in
  let observedPuddle := default "Moderate" (Inputs.observedPuddle inputs) in
  let observedSpread := default "Moderate" (Inputs.observedSpread inputs) in
  let observedTieIn := default "Adequate" (Inputs.observedTieIn inputs) in
  let observedStability := default "Stable" (Inputs.observedStability inputs) in
  let r :=
    if String.eqb observedPuddle "Stiff" then
      push_adjustments r "Increase heat: try higher amperage or slower travel"
    else if String.eqb observedPuddle "VeryFluid" then
      push_adjustments r "Reduce heat: try lower amperage or faster travel"
    else r in
  let r :=
    if String.eqb observedSpread "Narrow" then
      push_adjustments r "Widen puddle: slow down slightly or increase amperage"
    else if String.eqb observedSpread "Wide" then
      push_adjustments r "Narrow puddle: speed up slightly or decrease amperage"
    else r in
  let r :=
    if String.eqb observedTieIn "Poor" then
      push_adjustments r
        "Improve edge tie-in: direct more heat to edges, adjust angle"
    else r in
  if String.eqb observedStability "Unstable" then
    if String.eqb electrode "E6010" && String.eqb machineType "AC" then
      push_adjustments r "E6010 requires DC+, switch to E6011 for AC"
    else
      push_adjustments r "Maintain consistent arc length, check machine settings"
  else r.

(** Lines 383-390. *)
Definition initial : recommendations :=
  {| amperage := EmptyString; arcGap := EmptyString; rodAngle := EmptyString;
     travelSpeed := EmptyString; motionPattern := []; adjustments := [] |}.

(** Lines 367-496.  The reads of [this.electrodes], [this.positions],
    [this.metalThickness] and [this.jointTypes] at lines 393-397 are
    never used and cannot throw; they are left out. *)
Definition getRecommendations (inputs : Inputs.t) : completion recommendations :=
  bind (amperageStep inputs initial) (fun r =>
  Normal (observationStep inputs
            (electrodeStep inputs
               (positionStep inputs
                  (rodAngleStep inputs r))))).

End weldingKnowledge.

(** ** The visualization's use of the engine

    Of [WeldingKnowledgeVisualization] the parts that decide which
    snapshots reach [getRecommendations]: the parameters the constructor
    starts from, the choices the control panel offers, and the timer
    callback of [simulateRealTimeInput].  Scene, camera, nodes and DOM
    are left out. *)

Module WeldingKnowledgeVisualization.

(** Lines 514-525. *)
Definition params : Inputs.t :=
  {| Inputs.electrode := "E6010";
     Inputs.electrodeSize := size_1_8;
     Inputs.position := "Flat";
     Inputs.metalThickness := Medium;
     Inputs.jointType := "Butt";
     Inputs.machineType := "DC+";
     Inputs.observedPuddle := Some "Moderate";
     Inputs.observedSpread := Some "Moderate";
     Inputs.observedTieIn := Some "Adequate";
     Inputs.observedStability := Some "Stable" |}.

(** Lines 590-631: the option lists handed to the ten controllers of
    [setupGUI]. *)
Definition electrode_options : list string :=
  JS.keys weldingKnowledge.electrodes.
Definition electrodeSize_options : list string :=
  JS.keys weldingKnowledge.electrodeSize.
Definition position_options : list string :=
  JS.keys weldingKnowledge.positions.
Definition metalThickness_options : list string :=
  JS.keys weldingKnowledge.metalThickness.
Definition jointType_options : list string :=
  JS.keys weldingKnowledge.jointTypes.
Definition machineType_options : list string := ["AC"; "DC+"; "DC-"].
Definition observedPuddle_options : list string :=
  ["Stiff"; "Moderate"; "VeryFluid"].
Definition observedSpread_options : list string :=
  ["Narrow"; "Moderate"; "Wide"].
Definition observedTieIn_options : list string :=
  ["Poor"; "Adequate"; "Excellent"].
Definition observedStability_options : list string := ["Unstable"; "Stable"].

(** Lines 1056-1058. *)
Definition puddleStates : list string := ["Stiff"; "Moderate"; "VeryFluid"].
Definition spreadStates : list string := ["Narrow"; "Moderate"; "Wide"].
Definition tieInStates : list string := ["Poor"; "Adequate"; "Excellent"].

(** What the timer callback of [simulateRealTimeInput] reads and
    writes: [this.params] and the counter [currentIndex] of its
    closure, which starts at 0 (line 1060). *)
Record simulation : Type := {
  sim_params : Inputs.t;
  currentIndex : Z
}.

Definition start (p : Inputs.t) : simulation :=
  {| sim_params := p; currentIndex := 0 |}.

(** Lines 1062-1068: one run of the callback.  [%] is the remainder of
    the truncating division. *)
Definition tick (s : simulation) : simulation :=
  let currentIndex := Z.rem (currentIndex s + 1) 3 in
  let p := sim_params s in
  {| sim_params :=
       {| Inputs.electrode := Inputs.electrode p;
          Inputs.electrodeSize := Inputs.electrodeSize p;
          Inputs.position := Inputs.position p;
          Inputs.metalThickness := Inputs.metalThickness p;
          Inputs.jointType := Inputs.jointType p;
          Inputs.machineType := Inputs.machineType p;
          Inputs.observedPuddle := JS.index puddleStates currentIndex;
          Inputs.observedSpread :=
            JS.index spreadStates (Z.rem (currentIndex + 1) 3);
          Inputs.observedTieIn :=
            JS.index tieInStates (Z.rem (currentIndex + 2) 3);
          Inputs.observedStability := Inputs.observedStability p |};
     currentIndex := currentIndex |}.

(** The state after [n] runs of the callback. *)
Fixpoint ticks (n : nat) (s : simulation) : simulation :=
  match n with
  | O => s
  | S n' => tick (ticks n' s)
  end.

(** Lines 1075 and 903: what [updateRecommendations] asks the engine at
    the end of a run of the callback. *)
Definition updateRecommendations (s : simulation)
  : JS.completion recommendations :=
  weldingKnowledge.getRecommendations (sim_params s).

End WeldingKnowledgeVisualization.
(** ** Vocabulary of the statements *)

Import weldingKnowledge.

(** A snapshot whose four observations are left out. *)
Definition snapshot
  (electrode electrodeSize position metalThickness jointType machineType : string)
  : Inputs.t :=
  {| Inputs.electrode := electrode;
     Inputs.electrodeSize := electrodeSize;
     Inputs.position := position;
     Inputs.metalThickness := metalThickness;
     Inputs.jointType := jointType;
     Inputs.machineType := machineType;
     Inputs.observedPuddle := None;
     Inputs.observedSpread := None;
     Inputs.observedTieIn := None;
     Inputs.observedStability := None |}.

(** The same snapshot with all four observations given. *)
Definition observed (i : Inputs.t) (puddle spread tieIn stability : string)
  : Inputs.t :=
  {| Inputs.electrode := Inputs.electrode i;
     Inputs.electrodeSize := Inputs.electrodeSize i;
     Inputs.position := Inputs.position i;
     Inputs.metalThickness := Inputs.metalThickness i;
     Inputs.jointType := Inputs.jointType i;
     Inputs.machineType := Inputs.machineType i;
     Inputs.observedPuddle := Some puddle;
     Inputs.observedSpread := Some spread;
     Inputs.observedTieIn := Some tieIn;
     Inputs.observedStability := Some stability |}.

(** The amperage string the tables hold for a size and an electrode,
    when both keys are own properties. *)
Definition range_of (size electrode : string) : option string :=
  match JS.own electrodeSize size with
  | Some sizeData => JS.own (SizeData.amperage sizeData) electrode
  | None => None
  end.

(** Every amperage string of the tables with its two keys. *)
Definition table_entries : list (string * string * string) :=
  flat_map
    (fun sd => map (fun er => (fst sd, fst er, snd er))
                 (SizeData.amperage (snd sd)))
    electrodeSize.

(** The read of the tables throws: the size key is inherited, or the
    size is a table entry and the electrode key is inherited. *)
Definition prototype_hit (i : Inputs.t) : bool :=
  match JS.get electrodeSize (Inputs.electrodeSize i) with
  | JS.Inherited => true
  | JS.Undefined => false
  | JS.Own sizeData =>
      match JS.get (SizeData.amperage sizeData) (Inputs.electrode i) with
      | JS.Inherited => true
      | _ => false
      end
  end.

(** A T joint welded overhead with a 5/32 inch E7018 on thick plate, and
    what the engine returns for it. *)
Definition T_overhead : Inputs.t :=
  snapshot "E7018" size_5_32 "Overhead" Thick "T" "AC".

Definition T_overhead_result : recommendations :=
  {| amperage := "185-212A"; arcGap := "Short";
     rodAngle := "45° into corner"; travelSpeed := EmptyString;
     motionPattern := ["Straight"; "Side-to-side"];
     adjustments := ["Keep arc in puddle, don't let slag get ahead"] |}.

(** A corner joint welded vertically down with a 1/8 inch E6011. *)
Definition corner_down : Inputs.t :=
  snapshot "E6011" size_1_8 "Vertical Down" Medium "Corner" "AC".

Definition corner_down_result : recommendations :=
  {| amperage := "75-130A"; arcGap := "Medium";
     rodAngle := "Angle up slightly to hold puddle"; travelSpeed := "Fast";
     motionPattern := ["Circular"; "Zigzag"; "Whip/Step"];
     adjustments := [] |}.

(** A butt joint welded vertically up with a 1/8 inch E7018. *)
Definition butt_up_7018 : Inputs.t :=
  snapshot "E7018" size_1_8 "Vertical Up" Medium "Butt" "AC".

Definition butt_up_7018_result : recommendations :=
  {| amperage := "100-145A"; arcGap := "Short";
     rodAngle := "45° angled up slightly";
     travelSpeed := "Medium-slow, steady";
     motionPattern := ["Side-to-side"];
     adjustments := ["Keep arc in puddle, don't let slag get ahead"] |}.

(** A lap joint welded vertically up with a 5/32 inch E7024. *)
Definition lap_up_7024 : Inputs.t :=
  snapshot "E7024" size_5_32 "Vertical Up" Thin "Lap" "AC".

Definition lap_up_7024_result : recommendations :=
  {| amperage := "180-203A"; arcGap := "Short";
     rodAngle := "45° into corner";
     travelSpeed := "Medium-slow, steady";
     motionPattern := ["Straight"];
     adjustments := [] |}.

(** The parameters the visualization starts from (lines 514-520), with
    an E6010 on an AC machine and every observation off nominal. *)
Definition troubled : Inputs.t :=
  observed (snapshot "E6010" size_1_8 "Flat" Medium "Butt" "AC")
    "Stiff" "Narrow" "Poor" "Unstable".

Definition four_messages : list string :=
  [ "Increase heat: try higher amperage or slower travel";
    "Widen puddle: slow down slightly or increase amperage";
    "Improve edge tie-in: direct more heat to edges, adjust angle";
    "E6010 requires DC+, switch to E6011 for AC" ].

Definition troubled_result : recommendations :=
  {| amperage := "75-130A"; arcGap := "Medium";
     rodAngle := "Perpendicular"; travelSpeed := EmptyString;
     motionPattern := ["Circular"; "Zigzag"; "Whip/Step"];
     adjustments := four_messages |}.

(** *** Decision procedures run by the proofs *)

(** The thickness and position keys taken one from each branch of lines
    404-408 and 411-415. *)
Definition thickness_classes : list string := [Thin; Thick; Medium].
Definition position_classes : list string := ["Vertical Up"; "Overhead"; "Flat"].

(** Both bounds are integers, in order, and are amperages. *)
Definition ordered (bounds : JS.rounded * JS.rounded) : bool :=
  match bounds with
  | (JS.RInt lo, JS.RInt hi) => (0 <=? lo) && (lo <=? hi) && (hi <=? 250)
  | _ => false
  end.

(** The range narrowed for thickness [t], rounded without a trim. *)
Definition narrowedBounds (range t : string) : JS.rounded * JS.rounded :=
  let '(min, max) := adjustThickness t (parseRange range) in
  (JS.Math_round min, JS.Math_round max).

(** The rounded range at Vertical Up and at Overhead is the narrowed one
    with 5 and with 3 taken off its upper bound. *)
Definition trimmed_by (range t : string) : bool :=
  match narrowedBounds range t,
        roundedRange range t "Vertical Up",
        roundedRange range t "Overhead" with
  | (JS.RInt lo, JS.RInt hi), (JS.RInt lo5, JS.RInt hi5),
    (JS.RInt lo3, JS.RInt hi3) =>
      (lo5 =? lo) && (hi5 =? hi - 5) && (lo3 =? lo) && (hi3 =? hi - 3)
  | _, _, _ => false
  end.

(** [n / 10] rounded to the nearest integer, halves going up. *)
Definition round_tenths (n : Z) : Z := (n + 5) / 10.

(** The right-hand sides of lines 405 and 407. *)
Definition thin_max (min max : JS.number) : JS.number :=
  JS.add min (JS.mul (JS.sub max min) JS.lit_0_4).

Definition thick_min (min max : JS.number) : JS.number :=
  JS.add min (JS.mul (JS.sub max min) JS.lit_0_6).

(** For the integer range [a, b]: the Thin bound lies strictly below
    [b], the Thick bound strictly above [a], and both round to what
    exact arithmetic gives for [a + 0.4 (b - a)] and [a + 0.6 (b - a)]. *)
Definition narrowing_ok (a b : Z) : bool :=
  let min := JS.of_Z a in
  let max := JS.of_Z b in
  let thin := thin_max min max in
  let thick := thick_min min max in
  JS.ltb thin max && JS.ltb min thick &&
  match JS.Math_round thin, JS.Math_round thick with
  | JS.RInt x, JS.RInt y =>
      (x =? round_tenths (10 * a + 4 * (b - a))) &&
      (y =? round_tenths (10 * a + 6 * (b - a)))
  | _, _ => false
  end.

(** The integers [from], [from + 1], ..., [from + n - 1]. *)
Fixpoint zrange (n : nat) (from : Z) : list Z :=
  match n with
  | O => []
  | S n' => from :: zrange n' (from + 1)
  end.

(** The amperages the exhaustive check of the narrowing covers: the
    integers from 0 to 300; the tables stop at 250. *)
Definition amperage_limit : Z := 300.

Definition amperages : list Z := zrange (Z.to_nat (amperage_limit + 1)) 0.

(** Two Numbers are the same value, bit for bit. *)
Definition same_number (x y : JS.number) : bool :=
  match x, y with
  | S754_zero s, S754_zero s' => Bool.eqb s s'
  | S754_infinity s, S754_infinity s' => Bool.eqb s s'
  | S754_nan, S754_nan => true
  | S754_finite s m e, S754_finite s' m' e' =>
      Bool.eqb s s' && (m =? m')%positive && (e =? e')
  | _, _ => false
  end.

(** The integer a Number is, when it is one. *)
Definition integral (x : JS.number) : option Z :=
  match JS.Math_round x with
  | JS.RInt z => if same_number (JS.of_Z z) x then Some z else None
  | _ => None
  end.

(** An amperage string parses to two integers [0 <= a < b <= 250]. *)
Definition parses_to_amperages (range : string) : bool :=
  match integral (fst (parseRange range)), integral (snd (parseRange range)) with
  | Some a, Some b => (0 <=? a) && (a <? b) && (b <=? 250)
  | _, _ => false
  end.

(** *** Vocabulary of the further properties *)

(** A snapshot with one parameter replaced. *)
Definition with_machineType (i : Inputs.t) (machineType : string) : Inputs.t :=
  {| Inputs.electrode := Inputs.electrode i;
     Inputs.electrodeSize := Inputs.electrodeSize i;
     Inputs.position := Inputs.position i;
     Inputs.metalThickness := Inputs.metalThickness i;
     Inputs.jointType := Inputs.jointType i;
     Inputs.machineType := machineType;
     Inputs.observedPuddle := Inputs.observedPuddle i;
     Inputs.observedSpread := Inputs.observedSpread i;
     Inputs.observedTieIn := Inputs.observedTieIn i;
     Inputs.observedStability := Inputs.observedStability i |}.

Definition with_metalThickness (i : Inputs.t) (metalThickness : string)
  : Inputs.t :=
  {| Inputs.electrode := Inputs.electrode i;
     Inputs.electrodeSize := Inputs.electrodeSize i;
     Inputs.position := Inputs.position i;
     Inputs.metalThickness := metalThickness;
     Inputs.jointType := Inputs.jointType i;
     Inputs.machineType := Inputs.machineType i;
     Inputs.observedPuddle := Inputs.observedPuddle i;
     Inputs.observedSpread := Inputs.observedSpread i;
     Inputs.observedTieIn := Inputs.observedTieIn i;
     Inputs.observedStability := Inputs.observedStability i |}.

Definition with_jointType (i : Inputs.t) (jointType : string) : Inputs.t :=
  {| Inputs.electrode := Inputs.electrode i;
     Inputs.electrodeSize := Inputs.electrodeSize i;
     Inputs.position := Inputs.position i;
     Inputs.metalThickness := Inputs.metalThickness i;
     Inputs.jointType := jointType;
     Inputs.machineType := Inputs.machineType i;
     Inputs.observedPuddle := Inputs.observedPuddle i;
     Inputs.observedSpread := Inputs.observedSpread i;
     Inputs.observedTieIn := Inputs.observedTieIn i;
     Inputs.observedStability := Inputs.observedStability i |}.

(** The observation as the engine reads it after the defaults of lines
    376-379. *)
Definition puddle_of (i : Inputs.t) : string :=
  default "Moderate" (Inputs.observedPuddle i).
Definition spread_of (i : Inputs.t) : string :=
  default "Moderate" (Inputs.observedSpread i).
Definition tieIn_of (i : Inputs.t) : string :=
  default "Adequate" (Inputs.observedTieIn i).
Definition stability_of (i : Inputs.t) : string :=
  default "Stable" (Inputs.observedStability i).

(** The motion patterns the [electrodes] table lists for an electrode. *)
Definition techniqueOptions_of (electrode : string) : option (list string) :=
  option_map ElectrodeData.techniqueOptions (JS.own electrodes electrode).

Definition mem (s : string) (l : list string) : bool :=
  existsb (String.eqb s) l.

Definition mem_opt (o : option string) (l : list string) : bool :=
  match o with
  | Some s => mem s l
  | None => false
  end.

(** Every parameter of the snapshot is one of the choices its
    controller of the control panel offers. *)
Definition offered (p : Inputs.t) : bool :=
  mem (Inputs.electrode p) WeldingKnowledgeVisualization.electrode_options &&
  mem (Inputs.electrodeSize p)
    WeldingKnowledgeVisualization.electrodeSize_options &&
  mem (Inputs.position p) WeldingKnowledgeVisualization.position_options &&
  mem (Inputs.metalThickness p)
    WeldingKnowledgeVisualization.metalThickness_options &&
  mem (Inputs.jointType p) WeldingKnowledgeVisualization.jointType_options &&
  mem (Inputs.machineType p)
    WeldingKnowledgeVisualization.machineType_options &&
  mem_opt (Inputs.observedPuddle p)
    WeldingKnowledgeVisualization.observedPuddle_options &&
  mem_opt (Inputs.observedSpread p)
    WeldingKnowledgeVisualization.observedSpread_options &&
  mem_opt (Inputs.observedTieIn p)
    WeldingKnowledgeVisualization.observedTieIn_options &&
  mem_opt (Inputs.observedStability p)
    WeldingKnowledgeVisualization.observedStability_options.

(** The snapshot the simulation holds when its counter is [k]. *)
Definition simulated (p : Inputs.t) (k : Z) : Inputs.t :=
  {| Inputs.electrode := Inputs.electrode p;
     Inputs.electrodeSize := Inputs.electrodeSize p;
     Inputs.position := Inputs.position p;
     Inputs.metalThickness := Inputs.metalThickness p;
     Inputs.jointType := Inputs.jointType p;
     Inputs.machineType := Inputs.machineType p;
     Inputs.observedPuddle :=
       JS.index WeldingKnowledgeVisualization.puddleStates k;
     Inputs.observedSpread :=
       JS.index WeldingKnowledgeVisualization.spreadStates ((k + 1) mod 3);
     Inputs.observedTieIn :=
       JS.index WeldingKnowledgeVisualization.tieInStates ((k + 2) mod 3);
     Inputs.observedStability := Inputs.observedStability p |}.

(** The observation messages the simulation produces when its counter
    is 0, 1 and 2. *)
Definition phase_messages (k : Z) : list string :=
  if k =? 0 then
    [ "Increase heat: try higher amperage or slower travel" ]
  else if k =? 1 then
    [ "Narrow puddle: speed up slightly or decrease amperage";
      "Improve edge tie-in: direct more heat to edges, adjust angle" ]
  else
    [ "Reduce heat: try lower amperage or faster travel";
      "Widen puddle: slow down slightly or increase amperage" ].

(** The rounded range lies within the range the table gives. *)
Definition within_rated (range t p : string) : bool :=
  match integral (fst (parseRange range)), integral (snd (parseRange range)),
        roundedRange range t p with
  | Some a, Some b, (JS.RInt lo, JS.RInt hi) => (a <=? lo) && (hi <=? b)
  | _, _, _ => false
  end.

(** The upper bound for thin metal lies below the lower bound for thick
    metal. *)
Definition thin_below_thick (range p : string) : bool :=
  match roundedRange range Thin p, roundedRange range Thick p with
  | (_, JS.RInt hi), (JS.RInt lo, _) => hi <? lo
  | _, _ => false
  end.

(** A lap joint welded vertically up with a 1/8 inch E6010 on thin
    plate. *)
Definition lap_up_6010 : Inputs.t :=
  snapshot "E6010" size_1_8 "Vertical Up" Thin "Lap" "AC".

Definition lap_up_6010_result : recommendations :=
  {| amperage := "75-92A"; arcGap := "Medium";
     rodAngle := "45° into corner";
     travelSpeed := "Medium-slow, steady";
     motionPattern := ["Step/Whip"; "Circular"];
     adjustments := [] |}.

(** A joint type and an electrode that the tables do not know. *)
Definition edge_flat : Inputs.t :=
  snapshot "E6010" size_1_8 "Flat" Medium "Edge" "DC+".

Definition edge_flat_result : recommendations :=
  {| amperage := "75-130A"; arcGap := "Medium";
     rodAngle := EmptyString; travelSpeed := EmptyString;
     motionPattern := ["Circular"; "Zigzag"; "Whip/Step"];
     adjustments := [] |}.

Definition unknown_rod : Inputs.t :=
  snapshot "E9999" size_1_8 "Flat" Medium "Butt" "DC+".

Definition unknown_rod_result : recommendations :=
  {| amperage := EmptyString; arcGap := EmptyString;
     rodAngle := "Perpendicular"; travelSpeed := EmptyString;
     motionPattern := []; adjustments := [] |}.

(** The message the E7018 branch adds before any observation (line 461). *)
Definition slag_message : string :=
  "Keep arc in puddle, don't let slag get ahead".

(** No string occurs twice in the list. *)
Fixpoint distinct (l : list string) : bool :=
  match l with
  | [] => true
  | s :: rest => negb (mem s rest) && distinct rest
  end.

(** What each source of advice contributes, taken apart: the electrode
    (line 461), then the four observations (lines 471-493). *)
Definition electrode_messages (electrode : string) : list string :=
  if String.eqb electrode "E7018" then [slag_message] else [].

Definition puddle_messages (puddle : string) : list string :=
  if String.eqb puddle "Stiff" then
    ["Increase heat: try higher amperage or slower travel"]
  else if String.eqb puddle "VeryFluid" then
    ["Reduce heat: try lower amperage or faster travel"]
  else [].

Definition spread_messages (spread : string) : list string :=
  if String.eqb spread "Narrow" then
    ["Widen puddle: slow down slightly or increase amperage"]
  else if String.eqb spread "Wide" then
    ["Narrow puddle: speed up slightly or decrease amperage"]
  else [].

Definition tieIn_messages (tieIn : string) : list string :=
  if String.eqb tieIn "Poor" then
    ["Improve edge tie-in: direct more heat to edges, adjust angle"]
  else [].

Definition stability_messages (electrode machineType stability : string)
  : list string :=
  if String.eqb stability "Unstable" then
    if String.eqb electrode "E6010" && String.eqb machineType "AC" then
      ["E6010 requires DC+, switch to E6011 for AC"]
    else ["Maintain consistent arc length, check machine settings"]
  else [].

(** A butt joint welded vertically up with an E7018 on an AC machine,
    the puddle very fluid and wide, the arc unstable. *)
Definition fluid_7018 : Inputs.t :=
  observed butt_up_7018 "VeryFluid" "Wide" "Adequate" "Unstable".

Definition fluid_7018_result : recommendations :=
  {| amperage := "100-145A"; arcGap := "Short";
     rodAngle := "45° angled up slightly";
     travelSpeed := "Medium-slow, steady";
     motionPattern := ["Side-to-side"];
     adjustments :=
       [ "Keep arc in puddle, don't let slag get ahead";
         "Reduce heat: try lower amperage or faster travel";
         "Narrow puddle: speed up slightly or decrease amperage";
         "Maintain consistent arc length, check machine settings" ] |}.

(** *** Tactics *)

(** Case analysis on every string comparison in sight. *)
Ltac string_cases :=
  repeat match goal with
    | |- context [String.eqb ?a ?b] =>
        destruct (String.eqb_spec a b); try discriminate; try congruence;
        try subst;
        cbn [orb andb negb] in *
    end.

(** Case analysis on every condition in sight, as an opaque boolean. *)
Ltac branches :=
  repeat match goal with
    | |- context [if ?b then _ else _] => destruct b
    end.

(** A string comparison with a key known to differ fails. *)
Ltac other_key H := apply String.eqb_neq in H; rewrite H.
(** ** The JavaScript fragment on examples *)

Example lit_0_4_bits :
  JS.lit_0_4 = S754_finite false 7205759403792794 (-54).
Proof. reflexivity. Qed.

Example lit_0_6_bits :
  JS.lit_0_6 = S754_finite false 5404319552844595 (-53).
Proof. reflexivity. Qed.

Example parseInt_130A : JS.parseInt "130A" = JS.of_Z 130.
Proof. reflexivity. Qed.

Example parseInt_empty : JS.parseInt EmptyString = JS.NaN.
Proof. reflexivity. Qed.

Example split_range : JS.split "75-130A" "-"%char = ["75"; "130A"].
Proof. reflexivity. Qed.

Example round_half_up :
  JS.Math_round (JS.div (JS.of_Z 5) (JS.of_Z 2)) = JS.RInt 3 /\
  JS.Math_round (JS.div (JS.of_Z (-5)) (JS.of_Z 2)) = JS.RInt (-2) /\
  JS.Math_round (JS.mul (JS.of_Z 55) JS.lit_0_6) = JS.RInt 33.
Proof. repeat split; reflexivity. Qed.

Example to_string_130 :
  JS.to_string (JS.RInt 130) = "130" /\ JS.to_string (JS.RInt 0) = "0"
  /\ JS.to_string (JS.RInt (-7)) = "-7".
Proof. repeat split; reflexivity. Qed.

(** [Math_round] is the floor of [x + 1/2]: for [x = n * 2^e] it is
    [n * 2^e] when [e >= 0] and the floor of [(2 n + 2^-e) / 2^(1-e)]
    otherwise. *)
Lemma Math_round_floor (s : bool) (m : positive) (e : Z) :
  JS.Math_round (S754_finite s m e)
  = JS.RInt
      (let n := if s then Z.neg m else Z.pos m in
       if 0 <=? e then n * 2 ^ e
       else (2 * n + 2 ^ (- e)) / 2 ^ (- e + 1)).
Proof.
  cbv zeta. unfold JS.Math_round. f_equal.
  destruct (Z.leb_spec 0 e) as [He | He].
  - now rewrite Z.shiftl_mul_pow2.
  - set (n := if s then Z.neg m else Z.pos m).
    set (k := - e - 1). assert (Hk : 0 <= k) by (unfold k; lia).
    replace (- e) with (k + 1) by (unfold k; lia).
    assert (Hp : 0 < 2 ^ k) by (apply Z.pow_pos_nonneg; lia).
    rewrite Z.div2_div, Z.shiftr_div_pow2 by exact Hk.
    replace (2 ^ (k + 1 + 1)) with (2 ^ k * 2 * 2)
      by (rewrite !Z.pow_add_r by lia; reflexivity).
    replace (2 * n + 2 ^ (k + 1)) with ((n + 1 * 2 ^ k) * 2)
      by (rewrite Z.pow_add_r by lia; change (2 ^ 1) with 2; lia).
    rewrite Z.div_mul_cancel_r by lia.
    rewrite <- Z.div_div by lia.
    now rewrite Z.div_add by lia.
Qed.

(** ** How the steps compose *)

Lemma getRecommendations_inv (i : Inputs.t) (r : recommendations) :
  getRecommendations i = JS.Normal r ->
  exists r0,
    amperageStep i initial = JS.Normal r0 /\
    r = observationStep i
          (electrodeStep i (positionStep i (rodAngleStep i r0))).
Proof.
  unfold getRecommendations.
  destruct (amperageStep i initial) as [r0|]; cbn; intros H.
  - injection H as <-. now exists r0.
  - discriminate.
Qed.

(** The amperage step writes the [amperage] field and nothing else. *)
Lemma amperageStep_frame (i : Inputs.t) (r r0 : recommendations) :
  amperageStep i r = JS.Normal r0 ->
  arcGap r0 = arcGap r /\ rodAngle r0 = rodAngle r /\
  travelSpeed r0 = travelSpeed r /\ motionPattern r0 = motionPattern r /\
  adjustments r0 = adjustments r.
Proof.
  unfold amperageStep.
  destruct (JS.get electrodeSize _) as [sizeData| |]; try discriminate.
  - destruct (JS.get (SizeData.amperage sizeData) _) as [range| |];
      try discriminate.
    + destruct (truthy range); intros [= <-]; cbn; auto.
    + intros [= <-]; auto.
  - intros [= <-]; auto.
Qed.

(** The amperage step throws exactly on a [prototype_hit]. *)
Lemma amperageStep_throws (i : Inputs.t) (r : recommendations) :
  amperageStep i r = JS.TypeError <-> prototype_hit i = true.
Proof.
  unfold amperageStep, prototype_hit.
  destruct (JS.get electrodeSize _) as [sizeData| |].
  - destruct (JS.get (SizeData.amperage sizeData) _) as [range| |];
      try destruct (truthy range); split; congruence.
  - split; congruence.
  - split; congruence.
Qed.

Lemma getRecommendations_throws (i : Inputs.t) :
  getRecommendations i = JS.TypeError <-> prototype_hit i = true.
Proof.
  rewrite <- (amperageStep_throws i initial). unfold getRecommendations.
  destruct (amperageStep i initial); cbn; split; congruence.
Qed.

(** Away from inherited keys the engine returns a record. *)
Lemma getRecommendations_returns (i : Inputs.t) :
  prototype_hit i = false -> exists r, getRecommendations i = JS.Normal r.
Proof.
  intros H. destruct (getRecommendations i) as [r|] eqn:E.
  - now exists r.
  - apply getRecommendations_throws in E. congruence.
Qed.

(** Which fields each later step leaves alone. *)
Lemma rodAngleStep_frame (i : Inputs.t) (r : recommendations) :
  amperage (rodAngleStep i r) = amperage r /\
  arcGap (rodAngleStep i r) = arcGap r /\
  travelSpeed (rodAngleStep i r) = travelSpeed r /\
  motionPattern (rodAngleStep i r) = motionPattern r /\
  adjustments (rodAngleStep i r) = adjustments r.
Proof. unfold rodAngleStep. branches; cbn; auto. Qed.

Lemma positionStep_frame (i : Inputs.t) (r : recommendations) :
  amperage (positionStep i r) = amperage r /\
  arcGap (positionStep i r) = arcGap r /\
  adjustments (positionStep i r) = adjustments r.
Proof. unfold positionStep. branches; cbn; auto. Qed.

Lemma push_if_empty_frame (r : recommendations) (vs : list string) :
  amperage (push_if_empty r vs) = amperage r /\
  arcGap (push_if_empty r vs) = arcGap r /\
  rodAngle (push_if_empty r vs) = rodAngle r /\
  travelSpeed (push_if_empty r vs) = travelSpeed r /\
  adjustments (push_if_empty r vs) = adjustments r.
Proof. unfold push_if_empty. destruct (motionPattern r); cbn; auto. Qed.

Lemma electrodeStep_frame (i : Inputs.t) (r : recommendations) :
  amperage (electrodeStep i r) = amperage r /\
  rodAngle (electrodeStep i r) = rodAngle r /\
  travelSpeed (electrodeStep i r) = travelSpeed r.
Proof.
  unfold electrodeStep.
  branches;
    repeat match goal with
      | |- context [push_if_empty ?r ?vs] =>
          destruct (push_if_empty_frame r vs) as (-> & _ & -> & -> & _)
      end; cbn; auto.
Qed.

Lemma observationStep_frame (i : Inputs.t) (r : recommendations) :
  amperage (observationStep i r) = amperage r /\
  arcGap (observationStep i r) = arcGap r /\
  rodAngle (observationStep i r) = rodAngle r /\
  travelSpeed (observationStep i r) = travelSpeed r /\
  motionPattern (observationStep i r) = motionPattern r.
Proof. unfold observationStep. branches; cbn; auto. Qed.

(** What each step writes to a field depends on the incoming record
    only through that field. *)
Lemma positionStep_rodAngle_ext (i : Inputs.t) (r r' : recommendations) :
  rodAngle r = rodAngle r' ->
  rodAngle (positionStep i r) = rodAngle (positionStep i r').
Proof. intros Ha. unfold positionStep. branches; cbn; auto. Qed.

Lemma positionStep_motionPattern_ext (i : Inputs.t) (r r' : recommendations) :
  motionPattern r = motionPattern r' ->
  motionPattern (positionStep i r) = motionPattern (positionStep i r').
Proof.
  intros Hm. unfold positionStep. branches; cbn; rewrite ?Hm; auto.
Qed.

Lemma push_if_empty_ext (r r' : recommendations) (vs : list string) :
  motionPattern r = motionPattern r' ->
  motionPattern (push_if_empty r vs) = motionPattern (push_if_empty r' vs).
Proof.
  intros Hm. unfold push_if_empty. rewrite <- Hm.
  destruct (motionPattern r) eqn:E; cbn; congruence.
Qed.

Lemma electrodeStep_motionPattern_ext (i : Inputs.t) (r r' : recommendations) :
  motionPattern r = motionPattern r' ->
  motionPattern (electrodeStep i r) = motionPattern (electrodeStep i r').
Proof.
  intros Hm. unfold electrodeStep.
  branches; try apply push_if_empty_ext; cbn; congruence.
Qed.

Lemma electrodeStep_adjustments_ext (i : Inputs.t) (r r' : recommendations) :
  adjustments r = adjustments r' ->
  adjustments (electrodeStep i r) = adjustments (electrodeStep i r').
Proof.
  intros Ha. unfold electrodeStep.
  branches;
    repeat match goal with
      | |- context [push_if_empty ?x ?vs] =>
          destruct (push_if_empty_frame x vs) as (_ & _ & _ & _ & ->)
      end; cbn; congruence.
Qed.

Lemma observationStep_ext (i : Inputs.t) (r r' : recommendations) :
  adjustments r = adjustments r' ->
  adjustments (observationStep i r) = adjustments (observationStep i r').
Proof.
  intros Ha. unfold observationStep. branches; cbn; rewrite ?Ha; reflexivity.
Qed.

(** The returned rod angle is the one the position step leaves. *)
Lemma returned_rodAngle (i : Inputs.t) (r : recommendations) :
  getRecommendations i = JS.Normal r ->
  rodAngle r = rodAngle (positionStep i (rodAngleStep i initial)).
Proof.
  intros H. apply getRecommendations_inv in H as (r0 & H0 & ->).
  destruct (observationStep_frame i
              (electrodeStep i (positionStep i (rodAngleStep i r0))))
    as (_ & _ & -> & _).
  destruct (electrodeStep_frame i (positionStep i (rodAngleStep i r0)))
    as (_ & -> & _).
  apply amperageStep_frame in H0 as (_ & Hr & _).
  apply positionStep_rodAngle_ext.
  unfold rodAngleStep. branches; cbn; auto.
Qed.

(** The returned motion pattern is built by the position step and the
    electrode step from the empty list. *)
Lemma returned_motionPattern (i : Inputs.t) (r : recommendations) :
  getRecommendations i = JS.Normal r ->
  motionPattern r = motionPattern (electrodeStep i (positionStep i initial)).
Proof.
  intros H. apply getRecommendations_inv in H as (r0 & H0 & ->).
  destruct (observationStep_frame i
              (electrodeStep i (positionStep i (rodAngleStep i r0))))
    as (_ & _ & _ & _ & ->).
  apply amperageStep_frame in H0 as (_ & _ & _ & Hm & _).
  destruct (rodAngleStep_frame i r0) as (_ & _ & _ & Hm1 & _).
  apply electrodeStep_motionPattern_ext, positionStep_motionPattern_ext.
  congruence.
Qed.

(** The returned adjustments are built by the electrode step and the
    observation step from the empty list. *)
Lemma returned_adjustments (i : Inputs.t) (r : recommendations) :
  getRecommendations i = JS.Normal r ->
  adjustments r = adjustments (observationStep i (electrodeStep i initial)).
Proof.
  intros H. apply getRecommendations_inv in H as (r0 & H0 & ->).
  apply amperageStep_frame in H0 as (_ & _ & _ & _ & Ha).
  destruct (rodAngleStep_frame i r0) as (_ & _ & _ & _ & Ha1).
  destruct (positionStep_frame i (rodAngleStep i r0)) as (_ & _ & Ha2).
  apply observationStep_ext, electrodeStep_adjustments_ext.
  congruence.
Qed.

(** The returned amperage is the one the amperage step wrote. *)
Lemma returned_amperage (i : Inputs.t) (r r0 : recommendations) :
  amperageStep i initial = JS.Normal r0 ->
  getRecommendations i = JS.Normal r ->
  amperage r = amperage r0.
Proof.
  intros H0 H. apply getRecommendations_inv in H as (r0' & H0' & ->).
  assert (r0' = r0) as -> by congruence.
  destruct (observationStep_frame i
              (electrodeStep i (positionStep i (rodAngleStep i r0))))
    as (-> & _).
  destruct (electrodeStep_frame i (positionStep i (rodAngleStep i r0)))
    as (-> & _).
  destruct (positionStep_frame i (rodAngleStep i r0)) as (-> & _).
  destruct (rodAngleStep_frame i r0) as (-> & _).
  reflexivity.
Qed.

(** ** The amperage tables *)

Lemma range_of_table (size electrode range : string) :
  range_of size electrode = Some range ->
  In (size, electrode, range) table_entries.
Proof.
  unfold range_of, electrodeSize, JS.own.
  destruct (String.eqb_spec size size_3_32) as [-> | _];
    [ | destruct (String.eqb_spec size size_1_8) as [-> | _];
        [ | destruct (String.eqb_spec size size_5_32) as [-> | _];
            [ | discriminate ] ] ];
    cbn [SizeData.amperage];
    repeat match goal with
      | |- context [String.eqb electrode ?k] =>
          destruct (String.eqb_spec electrode k) as [-> | _]
      end;
    try discriminate;
    intros [= <-]; vm_compute; tauto.
Qed.

Lemma table_ranges_truthy (size electrode range : string) :
  In (size, electrode, range) table_entries -> truthy range = true.
Proof.
  assert (H : forallb (fun entry => truthy (snd entry)) table_entries = true)
    by (vm_compute; reflexivity).
  rewrite forallb_forall in H. intros Hin. exact (H _ Hin).
Qed.

(** Each thickness and each position acts on a range as one of three
    representatives does. *)
Lemma adjustThickness_class (t : string) :
  exists t', In t' thickness_classes /\
             forall range, adjustThickness t range = adjustThickness t' range.
Proof.
  destruct (String.eqb_spec t Thin) as [-> | Hthin].
  - exists Thin. split; [ cbn; auto | reflexivity ].
  - destruct (String.eqb_spec t Thick) as [-> | Hthick].
    + exists Thick. split; [ cbn; auto | reflexivity ].
    + exists Medium. split; [ cbn; auto | ].
      intros [min max]. unfold adjustThickness.
      apply String.eqb_neq in Hthin, Hthick. rewrite Hthin, Hthick.
      reflexivity.
Qed.

Lemma adjustPosition_class (p : string) :
  exists p', In p' position_classes /\
             forall range, adjustPosition p range = adjustPosition p' range.
Proof.
  destruct (String.eqb_spec p "Vertical Up") as [-> | Hup].
  - exists "Vertical Up". split; [ cbn; auto | reflexivity ].
  - destruct (String.eqb_spec p "Overhead") as [-> | Hover].
    + exists "Overhead". split; [ cbn; auto | reflexivity ].
    + exists "Flat". split; [ cbn; auto | ].
      intros [min max]. unfold adjustPosition.
      apply String.eqb_neq in Hup, Hover. rewrite Hup, Hover.
      reflexivity.
Qed.

Lemma all_ordered :
  forallb
    (fun entry =>
       forallb
         (fun t => forallb (fun p => ordered (roundedRange (snd entry) t p))
                     position_classes)
         thickness_classes)
    table_entries = true.
Proof. vm_compute. reflexivity. Qed.

Lemma all_trimmed :
  forallb
    (fun entry => forallb (trimmed_by (snd entry)) thickness_classes)
    table_entries = true.
Proof. vm_compute. reflexivity. Qed.

(** Every range of the tables, narrowed, trimmed and rounded for any
    thickness and position, is a pair of integers in order between 0
    and 250. *)
Lemma table_ranges_ordered (size electrode range t p : string) :
  In (size, electrode, range) table_entries ->
  ordered (roundedRange range t p) = true.
Proof.
  intros Hin.
  destruct (adjustThickness_class t) as (t' & Ht' & Ht).
  destruct (adjustPosition_class p) as (p' & Hp' & Hp).
  assert (E : roundedRange range t p = roundedRange range t' p').
  { unfold roundedRange, adjustedRange. now rewrite Ht, Hp. }
  rewrite E.
  pose proof (proj1 (forallb_forall _ _) all_ordered _ Hin) as H1.
  pose proof (proj1 (forallb_forall _ _) H1 _ Ht') as H2.
  exact (proj1 (forallb_forall _ _) H2 _ Hp').
Qed.

(** With both keys in the tables the engine returns, and the amperage
    it returns is the formatted rounded range. *)
Lemma getRecommendations_amperage (i : Inputs.t) (range : string) :
  range_of (Inputs.electrodeSize i) (Inputs.electrode i) = Some range ->
  exists r,
    getRecommendations i = JS.Normal r /\
    amperage r =
      formatRange
        (roundedRange range (Inputs.metalThickness i) (Inputs.position i)).
Proof.
  intros Hrange.
  pose proof (table_ranges_truthy _ _ _ (range_of_table _ _ _ Hrange)) as Ht.
  assert (H0 : amperageStep i initial
               = JS.Normal
                   (set_amperage initial
                      (formatRange
                         (roundedRange range (Inputs.metalThickness i)
                            (Inputs.position i))))).
  { unfold amperageStep, JS.get. unfold range_of in Hrange.
    destruct (JS.own electrodeSize _) as [sizeData|]; [ | discriminate ].
    rewrite Hrange, Ht. reflexivity. }
  destruct (getRecommendations i) as [r|] eqn:Hret.
  - exists r. split; [ reflexivity | ].
    now rewrite (returned_amperage i r _ H0 Hret).
  - apply getRecommendations_throws in Hret.
    apply (amperageStep_throws i initial) in Hret. congruence.
Qed.

Lemma same_number_eq (x y : JS.number) : same_number x y = true -> x = y.
Proof.
  destruct x as [s|s| |s m e], y as [s'|s'| |s' m' e']; cbn;
    try discriminate; try reflexivity.
  - intros H. apply Bool.eqb_prop in H. now subst.
  - intros H. apply Bool.eqb_prop in H. now subst.
  - intros H. apply andb_prop in H as (H & He).
    apply andb_prop in H as (Hs & Hm).
    apply Bool.eqb_prop in Hs. apply Pos.eqb_eq in Hm. apply Z.eqb_eq in He.
    now subst.
Qed.

Lemma integral_of_Z (x : JS.number) (z : Z) :
  integral x = Some z -> x = JS.of_Z z.
Proof.
  unfold integral. destruct (JS.Math_round x) as [z'| |]; try discriminate.
  destruct (same_number (JS.of_Z z') x) eqn:E; [ | discriminate ].
  intros [= <-]. symmetry. now apply same_number_eq.
Qed.

(** Every amperage string of the tables parses to a pair of integer
    Numbers [a < b] between 0 and 250. *)
Lemma table_ranges_parse (size electrode range : string) :
  In (size, electrode, range) table_entries ->
  exists a b,
    parseRange range = (JS.of_Z a, JS.of_Z b) /\ 0 <= a < b /\ b <= 250.
Proof.
  assert (H : forallb (fun entry => parses_to_amperages (snd entry))
                table_entries = true) by (vm_compute; reflexivity).
  rewrite forallb_forall in H. intros Hin. specialize (H _ Hin).
  cbn [snd] in H. unfold parses_to_amperages in H.
  destruct (integral (fst (parseRange range))) as [a|] eqn:Ea;
    [ | discriminate ].
  destruct (integral (snd (parseRange range))) as [b|] eqn:Eb;
    [ | discriminate ].
  apply integral_of_Z in Ea, Eb. exists a, b.
  split; [ rewrite (surjective_pairing (parseRange range)); congruence | ].
  lia.
Qed.

(** ** Integer ranges *)

Lemma zrange_In (n : nat) (from z : Z) :
  from <= z < from + Z.of_nat n -> In z (zrange n from).
Proof.
  revert from. induction n as [|n IH]; intros from Hz.
  - lia.
  - cbn [zrange]. destruct (Z.eq_dec from z) as [-> | Hne].
    + now left.
    + right. apply IH. lia.
Qed.

Lemma In_amperages (z : Z) : 0 <= z <= amperage_limit -> In z amperages.
Proof.
  intros Hz. unfold amperages. apply zrange_In.
  unfold amperage_limit in *. lia.
Qed.

Lemma narrowing_ok_amperages :
  forallb
    (fun a =>
       forallb (fun b => if a <? b then narrowing_ok a b else true) amperages)
    amperages = true.
Proof. vm_compute. reflexivity. Qed.

Lemma narrowing_ok_in_range (a b : Z) :
  0 <= a < b -> b <= amperage_limit -> narrowing_ok a b = true.
Proof.
  intros Ha Hb.
  assert (Hlt : (a <? b) = true) by (apply Z.ltb_lt; lia).
  pose proof (In_amperages a ltac:(lia)) as Ina.
  pose proof (In_amperages b ltac:(lia)) as Inb.
  pose proof (proj1 (forallb_forall _ _) narrowing_ok_amperages a Ina) as H1.
  pose proof (proj1 (forallb_forall _ _) H1 b Inb) as H2.
  cbv beta in H2. rewrite Hlt in H2. exact H2.
Qed.

(** A thickness that is neither of the two keys of lines 404 and 406
    leaves the range as it is. *)
Lemma adjustThickness_other (t : string) (range : JS.number * JS.number) :
  t <> Thin -> t <> Thick -> adjustThickness t range = range.
Proof.
  intros Hthin Hthick. destruct range as [min max]. unfold adjustThickness.
  apply String.eqb_neq in Hthin, Hthick. now rewrite Hthin, Hthick.
Qed.

(** A key that is neither in the tables nor inherited leaves the
    amperage unset, and the engine still returns. *)
Lemma unknown_keys_leave_amperage_unset (i : Inputs.t) :
  range_of (Inputs.electrodeSize i) (Inputs.electrode i) = None ->
  prototype_hit i = false ->
  exists r, getRecommendations i = JS.Normal r /\ amperage r = EmptyString.
Proof.
  intros Hnone Hhit.
  destruct (getRecommendations_returns i Hhit) as (r & Hret).
  exists r. split; [ exact Hret | ].
  apply getRecommendations_inv in Hret as (r0 & H0 & ->).
  destruct (observationStep_frame i
              (electrodeStep i (positionStep i (rodAngleStep i r0))))
    as (-> & _).
  destruct (electrodeStep_frame i (positionStep i (rodAngleStep i r0)))
    as (-> & _).
  destruct (positionStep_frame i (rodAngleStep i r0)) as (-> & _).
  destruct (rodAngleStep_frame i r0) as (-> & _).
  revert H0. unfold amperageStep, JS.get. unfold range_of in Hnone.
  destruct (JS.own electrodeSize _) as [sizeData|].
  - rewrite Hnone. destruct (JS.inherited _); intros [= <-]; reflexivity.
  - destruct (JS.inherited _); intros [= <-]; reflexivity.
Qed.

(** What the engine prints through [JS.to_string] is a pair of integers
    between 0 and 250, so decimal notation is the right rendering. *)
Lemma printed_amperages (i : Inputs.t) (r : recommendations) :
  getRecommendations i = JS.Normal r ->
  amperage r = EmptyString \/
  exists lo hi,
    0 <= lo /\ lo <= hi /\ hi <= 250 /\
    amperage r = JS.string_of_Z lo ++ "-" ++ JS.string_of_Z hi ++ "A".
Proof.
  intros Hret.
  destruct (range_of (Inputs.electrodeSize i) (Inputs.electrode i))
    as [range|] eqn:Hrange.
  - right.
    destruct (getRecommendations_amperage i range Hrange) as (r' & Hret' & Hamp).
    assert (r' = r) as -> by congruence.
    pose proof (table_ranges_ordered _ _ _ (Inputs.metalThickness i)
                  (Inputs.position i) (range_of_table _ _ _ Hrange)) as Hord.
    destruct (roundedRange range _ _) as [[lo| |] [hi| |]]; try discriminate.
    exists lo, hi. cbn in Hord. repeat split; try lia. exact Hamp.
  - left.
    destruct (prototype_hit i) eqn:Hhit.
    + apply getRecommendations_throws in Hhit. congruence.
    + destruct (unknown_keys_leave_amperage_unset i Hrange Hhit)
        as (r' & Hret' & Hamp).
      congruence.
Qed.

(** ** The claims *)

(** C1.  For electrode E6010, size 1/8 inch, position Flat, thickness
    Medium, joint Butt, machine DC+ and no observation given,
    [getRecommendations] returns amperage 75-130A, rod angle
    Perpendicular, arc gap Medium, the motion patterns Circular, Zigzag,
    Whip/Step in that order, and no adjustment. *)
Theorem C1_default_scenario :
  exists r,
    getRecommendations (snapshot "E6010" size_1_8 "Flat" Medium "Butt" "DC+")
    = JS.Normal r /\
    amperage r = "75-130A" /\
    rodAngle r = "Perpendicular" /\
    arcGap r = "Medium" /\
    motionPattern r = ["Circular"; "Zigzag"; "Whip/Step"] /\
    adjustments r = [].
Proof. eexists. split; [ vm_compute; reflexivity | repeat split ]. Qed.

(** C2, as the spec states it, fails: with joint type Lap and position
    Vertical Down the returned rod angle is the position's override, not
    45 degrees into the corner. *)
Lemma C2_position_overrides_lap :
  exists r,
    getRecommendations
      (snapshot "E6010" size_1_8 "Vertical Down" Medium "Lap" "DC+")
    = JS.Normal r /\
    rodAngle r = "Angle up slightly to hold puddle" /\
    rodAngle r <> "45° into corner".
Proof.
  eexists. split; [ vm_compute; reflexivity | split; [ reflexivity | ] ].
  cbn. discriminate.
Qed.

(** C2, amended.  For joint type Lap or T the rod-angle step (lines
    421-429) sets 45 degrees into the corner whatever the position, and
    that is the returned rod angle for every position other than
    Vertical Down and Horizontal. *)
Theorem C2_lap_or_t_rod_angle (i : Inputs.t) (r : recommendations) :
  Inputs.jointType i = "Lap" \/ Inputs.jointType i = "T" ->
  (forall r0, rodAngle (rodAngleStep i r0) = "45° into corner") /\
  (Inputs.position i <> "Vertical Down" ->
   Inputs.position i <> "Horizontal" ->
   getRecommendations i = JS.Normal r ->
   rodAngle r = "45° into corner").
Proof.
  intros Hj.
  assert (Hstep : forall r0, rodAngle (rodAngleStep i r0) = "45° into corner").
  { intros r0. unfold rodAngleStep. destruct Hj as [-> | ->]; reflexivity. }
  split; [ exact Hstep | ].
  intros Hvd Hh Hret. rewrite (returned_rodAngle i r Hret).
  specialize (Hstep initial). revert Hstep.
  generalize (rodAngleStep i initial). intros r1 Hr1.
  unfold positionStep.
  destruct (String.eqb_spec (Inputs.position i) "Vertical Down");
    [ contradiction | ].
  destruct (String.eqb_spec (Inputs.position i) "Horizontal");
    [ contradiction | ].
  string_cases; cbn; exact Hr1.
Qed.

(** The amended C2 on a T joint welded overhead. *)
Lemma C2_lap_or_t_rod_angle_witness :
  (Inputs.jointType T_overhead = "Lap" \/ Inputs.jointType T_overhead = "T") /\
  Inputs.position T_overhead <> "Vertical Down" /\
  Inputs.position T_overhead <> "Horizontal" /\
  getRecommendations T_overhead = JS.Normal T_overhead_result /\
  rodAngle T_overhead_result = "45° into corner".
Proof.
  assert (Hj : Inputs.jointType T_overhead = "Lap" \/
               Inputs.jointType T_overhead = "T") by (right; reflexivity).
  assert (Hvd : Inputs.position T_overhead <> "Vertical Down")
    by (cbn; discriminate).
  assert (Hh : Inputs.position T_overhead <> "Horizontal")
    by (cbn; discriminate).
  assert (Hret : getRecommendations T_overhead = JS.Normal T_overhead_result)
    by (vm_compute; reflexivity).
  exact (conj Hj (conj Hvd (conj Hh (conj Hret
           (proj2 (C2_lap_or_t_rod_angle _ _ Hj) Hvd Hh Hret))))).
Defined.

(** C3.  For every size and electrode of the amperage tables and every
    metal thickness and position, the engine returns an amperage
    [lo-hiA] whose bounds, after narrowing, trimming and rounding,
    satisfy [lo <= hi]. *)
Theorem C3_amperage_range_ordered (i : Inputs.t) (range : string) :
  range_of (Inputs.electrodeSize i) (Inputs.electrode i) = Some range ->
  exists r lo hi,
    getRecommendations i = JS.Normal r /\
    roundedRange range (Inputs.metalThickness i) (Inputs.position i)
    = (JS.RInt lo, JS.RInt hi) /\
    amperage r = JS.string_of_Z lo ++ "-" ++ JS.string_of_Z hi ++ "A" /\
    lo <= hi.
Proof.
  intros Hrange.
  destruct (getRecommendations_amperage i range Hrange) as (r & Hret & Hamp).
  pose proof (table_ranges_ordered _ _ _ (Inputs.metalThickness i)
                (Inputs.position i) (range_of_table _ _ _ Hrange)) as Hord.
  destruct (roundedRange range _ _) as [[lo| |] [hi| |]]; try discriminate.
  exists r, lo, hi. repeat split; try assumption.
  cbn in Hord. lia.
Qed.

(** C3 on a 5/32 inch E7024: 180-250A on thin plate, vertical up. *)
Lemma C3_amperage_range_ordered_witness :
  range_of (Inputs.electrodeSize lap_up_7024) (Inputs.electrode lap_up_7024)
  = Some "180-250A" /\
  exists r lo hi,
    getRecommendations lap_up_7024 = JS.Normal r /\
    roundedRange "180-250A" (Inputs.metalThickness lap_up_7024)
      (Inputs.position lap_up_7024)
    = (JS.RInt lo, JS.RInt hi) /\
    amperage r = JS.string_of_Z lo ++ "-" ++ JS.string_of_Z hi ++ "A" /\
    lo <= hi.
Proof.
  exact (conj eq_refl
           (C3_amperage_range_ordered lap_up_7024 "180-250A" eq_refl)).
Defined.

(** C4.  On an integer range [0 <= a < b <= 300] of amperages (the
    tables stay within 250), thickness Thin leaves min alone and sets max to min + 0.4 (max - min), which lies
    strictly below the old max; thickness Thick leaves max alone and
    sets min to min + 0.6 (max - min), which lies strictly above the old
    min; thickness Medium leaves both alone.  The two new bounds round
    to what the formulas give in exact arithmetic. *)
Theorem C4_thickness_narrowing (a b : Z) :
  0 <= a < b -> b <= 300 ->
  (adjustThickness Thin (JS.of_Z a, JS.of_Z b)
   = (JS.of_Z a, thin_max (JS.of_Z a) (JS.of_Z b)) /\
   JS.ltb (thin_max (JS.of_Z a) (JS.of_Z b)) (JS.of_Z b) = true /\
   JS.Math_round (thin_max (JS.of_Z a) (JS.of_Z b))
   = JS.RInt (round_tenths (10 * a + 4 * (b - a)))) /\
  (adjustThickness Thick (JS.of_Z a, JS.of_Z b)
   = (thick_min (JS.of_Z a) (JS.of_Z b), JS.of_Z b) /\
   JS.ltb (JS.of_Z a) (thick_min (JS.of_Z a) (JS.of_Z b)) = true /\
   JS.Math_round (thick_min (JS.of_Z a) (JS.of_Z b))
   = JS.RInt (round_tenths (10 * a + 6 * (b - a)))) /\
  adjustThickness Medium (JS.of_Z a, JS.of_Z b) = (JS.of_Z a, JS.of_Z b).
Proof.
  intros Ha Hb.
  pose proof (narrowing_ok_in_range a b Ha Hb) as H.
  unfold narrowing_ok in H. cbv zeta in H.
  apply andb_prop in H as (H & Hround). apply andb_prop in H as (Hthin & Hthick).
  destruct (JS.Math_round (thin_max _ _)) as [x| |]; try discriminate.
  destruct (JS.Math_round (thick_min _ _)) as [y| |]; try discriminate.
  apply andb_prop in Hround as (Hx & Hy).
  apply Z.eqb_eq in Hx, Hy. subst x y.
  repeat split; try assumption; reflexivity.
Qed.

(** C4 on the 75-130A range of a 1/8 inch E6010. *)
Lemma C4_thickness_narrowing_witness :
  (0 <= 75 < 130 /\ 130 <= 300) /\
  (adjustThickness Thin (JS.of_Z 75, JS.of_Z 130)
   = (JS.of_Z 75, thin_max (JS.of_Z 75) (JS.of_Z 130)) /\
   JS.ltb (thin_max (JS.of_Z 75) (JS.of_Z 130)) (JS.of_Z 130) = true /\
   JS.Math_round (thin_max (JS.of_Z 75) (JS.of_Z 130))
   = JS.RInt (round_tenths (10 * 75 + 4 * (130 - 75)))) /\
  (adjustThickness Thick (JS.of_Z 75, JS.of_Z 130)
   = (thick_min (JS.of_Z 75) (JS.of_Z 130), JS.of_Z 130) /\
   JS.ltb (JS.of_Z 75) (thick_min (JS.of_Z 75) (JS.of_Z 130)) = true /\
   JS.Math_round (thick_min (JS.of_Z 75) (JS.of_Z 130))
   = JS.RInt (round_tenths (10 * 75 + 6 * (130 - 75)))) /\
  adjustThickness Medium (JS.of_Z 75, JS.of_Z 130)
  = (JS.of_Z 75, JS.of_Z 130).
Proof.
  assert (Ha : 0 <= 75 < 130) by lia.
  assert (Hb : 130 <= 300) by lia.
  exact (conj (conj Ha Hb) (C4_thickness_narrowing 75 130 Ha Hb)).
Defined.

(** In the amperage resolution itself the range that is narrowed is an
    integer range of the kind C4 speaks of. *)
Lemma narrowing_applies_to_the_tables (size electrode range : string) :
  range_of size electrode = Some range ->
  exists a b,
    parseRange range = (JS.of_Z a, JS.of_Z b) /\ 0 <= a < b /\ b <= 300.
Proof.
  intros H.
  destruct (table_ranges_parse _ _ _ (range_of_table _ _ _ H))
    as (a & b & Hp & Hab & Hb).
  exists a, b. repeat split; try assumption; lia.
Qed.

(** C5.  For every size and electrode of the tables and every metal
    thickness, position Vertical Up takes exactly 5 and position
    Overhead exactly 3 off the upper bound, and what they are taken off
    is the range already narrowed for the thickness. *)
Theorem C5_position_trims (i : Inputs.t) (range : string) :
  range_of (Inputs.electrodeSize i) (Inputs.electrode i) = Some range ->
  exists r lo hi,
    getRecommendations i = JS.Normal r /\
    narrowedBounds range (Inputs.metalThickness i)
    = (JS.RInt lo, JS.RInt hi) /\
    (Inputs.position i = "Vertical Up" ->
     adjustedRange range (Inputs.metalThickness i) (Inputs.position i)
     = (fst (adjustThickness (Inputs.metalThickness i) (parseRange range)),
        JS.sub
          (snd (adjustThickness (Inputs.metalThickness i) (parseRange range)))
          (JS.of_Z 5)) /\
     amperage r = JS.string_of_Z lo ++ "-" ++ JS.string_of_Z (hi - 5) ++ "A") /\
    (Inputs.position i = "Overhead" ->
     adjustedRange range (Inputs.metalThickness i) (Inputs.position i)
     = (fst (adjustThickness (Inputs.metalThickness i) (parseRange range)),
        JS.sub
          (snd (adjustThickness (Inputs.metalThickness i) (parseRange range)))
          (JS.of_Z 3)) /\
     amperage r = JS.string_of_Z lo ++ "-" ++ JS.string_of_Z (hi - 3) ++ "A").
Proof.
  intros Hrange.
  destruct (getRecommendations_amperage i range Hrange) as (r & Hret & Hamp).
  destruct (adjustThickness_class (Inputs.metalThickness i))
    as (t' & Ht' & Ht).
  pose proof (proj1 (forallb_forall _ _) all_trimmed _
                (range_of_table _ _ _ Hrange)) as H1.
  pose proof (proj1 (forallb_forall _ _) H1 _ Ht') as H2.
  cbn [snd] in H2. unfold trimmed_by in H2.
  assert (En : narrowedBounds range (Inputs.metalThickness i)
               = narrowedBounds range t')
    by (unfold narrowedBounds; now rewrite Ht).
  assert (Er : forall p, roundedRange range (Inputs.metalThickness i) p
                         = roundedRange range t' p)
    by (intros p; unfold roundedRange, adjustedRange; now rewrite Ht).
  rewrite <- En, <- !Er in H2.
  destruct (narrowedBounds range _) as [[lo| |] [hi| |]]; try discriminate.
  exists r, lo, hi. split; [ exact Hret | split; [ reflexivity | ] ].
  split; intros Hp; rewrite Hp in *.
  - split.
    + unfold adjustedRange.
      now destruct (adjustThickness _ (parseRange range)).
    + rewrite Hamp.
      destruct (roundedRange range _ "Vertical Up") as [[lo5| |] [hi5| |]];
        try discriminate.
      destruct (roundedRange range _ "Overhead") as [[lo3| |] [hi3| |]];
        try discriminate.
      apply andb_prop in H2 as (H2 & _). apply andb_prop in H2 as (H2 & _).
      apply andb_prop in H2 as (Hlo & Hhi).
      apply Z.eqb_eq in Hlo, Hhi. now subst.
  - split.
    + unfold adjustedRange.
      now destruct (adjustThickness _ (parseRange range)).
    + rewrite Hamp.
      destruct (roundedRange range _ "Vertical Up") as [[lo5| |] [hi5| |]];
        try discriminate.
      destruct (roundedRange range _ "Overhead") as [[lo3| |] [hi3| |]];
        try discriminate.
      apply andb_prop in H2 as (H2 & Hhi). apply andb_prop in H2 as (_ & Hlo).
      apply Z.eqb_eq in Hlo, Hhi. now subst.
Qed.

(** C5 on a 5/32 inch E7018 welded overhead on thick plate. *)
Lemma C5_position_trims_witness :
  range_of (Inputs.electrodeSize T_overhead) (Inputs.electrode T_overhead)
  = Some "140-215A" /\
  exists r lo hi,
    getRecommendations T_overhead = JS.Normal r /\
    narrowedBounds "140-215A" (Inputs.metalThickness T_overhead)
    = (JS.RInt lo, JS.RInt hi) /\
    (Inputs.position T_overhead = "Vertical Up" ->
     adjustedRange "140-215A" (Inputs.metalThickness T_overhead)
       (Inputs.position T_overhead)
     = (fst (adjustThickness (Inputs.metalThickness T_overhead)
               (parseRange "140-215A")),
        JS.sub
          (snd (adjustThickness (Inputs.metalThickness T_overhead)
                  (parseRange "140-215A")))
          (JS.of_Z 5)) /\
     amperage r = JS.string_of_Z lo ++ "-" ++ JS.string_of_Z (hi - 5) ++ "A") /\
    (Inputs.position T_overhead = "Overhead" ->
     adjustedRange "140-215A" (Inputs.metalThickness T_overhead)
       (Inputs.position T_overhead)
     = (fst (adjustThickness (Inputs.metalThickness T_overhead)
               (parseRange "140-215A")),
        JS.sub
          (snd (adjustThickness (Inputs.metalThickness T_overhead)
                  (parseRange "140-215A")))
          (JS.of_Z 3)) /\
     amperage r = JS.string_of_Z lo ++ "-" ++ JS.string_of_Z (hi - 3) ++ "A").
Proof.
  exact (conj eq_refl (C5_position_trims T_overhead "140-215A" eq_refl)).
Defined.

(** The order of the two steps shows in the result: trimming a 75-130A
    range before narrowing it for thin metal would print 75-95A, where
    the engine prints 75-92A. *)
Example trim_after_narrowing :
  formatRange (roundedRange "75-130A" Thin "Vertical Up") = "75-92A" /\
  (let '(min, max) :=
     adjustThickness Thin (adjustPosition "Vertical Up" (parseRange "75-130A"))
   in formatRange (JS.Math_round min, JS.Math_round max)) = "75-95A".
Proof. split; vm_compute; reflexivity. Qed.

(** C6.  Whatever the joint type, position Vertical Down makes the
    returned rod angle "Angle up slightly to hold puddle" and position
    Horizontal makes it "Angle up slightly to control puddle": the
    position step overwrites what the joint type had set. *)
Theorem C6_position_forces_rod_angle (i : Inputs.t) (r : recommendations) :
  getRecommendations i = JS.Normal r ->
  (Inputs.position i = "Vertical Down" ->
   rodAngle r = "Angle up slightly to hold puddle") /\
  (Inputs.position i = "Horizontal" ->
   rodAngle r = "Angle up slightly to control puddle").
Proof.
  intros Hret. rewrite (returned_rodAngle i r Hret).
  unfold positionStep. split; intros ->; reflexivity.
Qed.

(** C6 on a corner joint welded vertically down. *)
Lemma C6_position_forces_rod_angle_witness :
  getRecommendations corner_down = JS.Normal corner_down_result /\
  Inputs.position corner_down = "Vertical Down" /\
  rodAngle corner_down_result = "Angle up slightly to hold puddle".
Proof.
  assert (Hret : getRecommendations corner_down = JS.Normal corner_down_result)
    by (vm_compute; reflexivity).
  exact (conj Hret (conj eq_refl
           (proj1 (C6_position_forces_rod_angle corner_down
                     corner_down_result Hret) eq_refl))).
Defined.

(** C7.  With position Vertical Up and electrode E7018 the returned
    motion pattern is exactly Side-to-side: the position step seeds that
    one entry and the electrode step, finding the list non-empty, adds
    nothing. *)
Theorem C7_vertical_up_7018_pattern (i : Inputs.t) (r : recommendations) :
  Inputs.position i = "Vertical Up" ->
  Inputs.electrode i = "E7018" ->
  getRecommendations i = JS.Normal r ->
  motionPattern (positionStep i initial) = ["Side-to-side"] /\
  motionPattern r = ["Side-to-side"].
Proof.
  intros Hp He Hret. rewrite (returned_motionPattern i r Hret).
  unfold electrodeStep, positionStep. rewrite Hp, He. split; reflexivity.
Qed.

(** C7 on a butt joint welded vertically up. *)
Lemma C7_vertical_up_7018_pattern_witness :
  Inputs.position butt_up_7018 = "Vertical Up" /\
  Inputs.electrode butt_up_7018 = "E7018" /\
  getRecommendations butt_up_7018 = JS.Normal butt_up_7018_result /\
  motionPattern butt_up_7018_result = ["Side-to-side"].
Proof.
  assert (Hret : getRecommendations butt_up_7018
                 = JS.Normal butt_up_7018_result)
    by (vm_compute; reflexivity).
  exact (conj eq_refl (conj eq_refl (conj Hret
           (proj2 (C7_vertical_up_7018_pattern butt_up_7018
                     butt_up_7018_result eq_refl eq_refl Hret))))).
Defined.

(** C8.  Observation adjustments come in the order heat, spread, edge
    tie-in, arc stability: with electrode E6010 on an AC machine and the
    observations Stiff, Narrow, Poor, Unstable, whatever the other four
    parameters, the returned adjustments are exactly the four messages
    in that order, the last being the E6010-on-AC one. *)
Theorem C8_observation_order
  (electrodeSize position metalThickness jointType : string)
  (r : recommendations) :
  getRecommendations
    (observed
       (snapshot "E6010" electrodeSize position metalThickness jointType "AC")
       "Stiff" "Narrow" "Poor" "Unstable")
  = JS.Normal r ->
  adjustments r =
    [ "Increase heat: try higher amperage or slower travel";
      "Widen puddle: slow down slightly or increase amperage";
      "Improve edge tie-in: direct more heat to edges, adjust angle";
      "E6010 requires DC+, switch to E6011 for AC" ].
Proof.
  intros Hret. rewrite (returned_adjustments _ r Hret). reflexivity.
Qed.

(** C8 on the visualization's starting parameters. *)
Lemma C8_observation_order_witness :
  getRecommendations troubled = JS.Normal troubled_result /\
  adjustments troubled_result = four_messages.
Proof.
  assert (Hret : getRecommendations troubled = JS.Normal troubled_result)
    by (vm_compute; reflexivity).
  exact (conj Hret (C8_observation_order _ _ _ _ _ Hret)).
Defined.

(** C9 fails on the code.  A size key that the table inherits from
    [Object.prototype] passes the truthiness guard of line 400 and the
    read of its missing [amperage] entry throws; so does an inherited
    electrode key under a size of the table, at the call of [split] on
    line 401. *)
Theorem C9_inherited_key_throws :
  getRecommendations
    (snapshot "E6010" "constructor" "Flat" Medium "Butt" "DC+")
  = JS.TypeError /\
  getRecommendations
    (snapshot "toString" size_1_8 "Flat" Medium "Butt" "DC+")
  = JS.TypeError.
Proof. split; vm_compute; reflexivity. Qed.

(** What does hold of C9 is [unknown_keys_leave_amperage_unset] above; the
    unknown electrode of the spec is an instance. *)
Example unknown_electrode_E9999 :
  getRecommendations (snapshot "E9999" size_1_8 "Flat" Medium "Butt" "DC+")
  = JS.Normal
      {| amperage := EmptyString; arcGap := EmptyString;
         rodAngle := "Perpendicular"; travelSpeed := EmptyString;
         motionPattern := []; adjustments := [] |}.
Proof. vm_compute; reflexivity. Qed.

(** C10.  With electrode E7024 the returned motion pattern is exactly
    Straight, whatever the position: the position step seeds patterns
    for E7018, E6010 and E6011 only, so the unguarded push of line 467
    always lands on an empty list. *)
Theorem C10_7024_pattern (i : Inputs.t) (r : recommendations) :
  Inputs.electrode i = "E7024" ->
  getRecommendations i = JS.Normal r ->
  motionPattern (positionStep i initial) = [] /\
  motionPattern r = ["Straight"].
Proof.
  intros He Hret. rewrite (returned_motionPattern i r Hret).
  unfold electrodeStep, positionStep. rewrite He.
  string_cases; split; reflexivity.
Qed.

(** C10 on a lap joint welded vertically up. *)
Lemma C10_7024_pattern_witness :
  Inputs.electrode lap_up_7024 = "E7024" /\
  getRecommendations lap_up_7024 = JS.Normal lap_up_7024_result /\
  motionPattern lap_up_7024_result = ["Straight"].
Proof.
  assert (Hret : getRecommendations lap_up_7024 = JS.Normal lap_up_7024_result)
    by (vm_compute; reflexivity).
  exact (conj eq_refl (conj Hret
           (proj2 (C10_7024_pattern lap_up_7024 lap_up_7024_result
                     eq_refl Hret)))).
Defined.

(** ** Further properties of the engine *)

(** *** What each returned field is made of *)

Lemma positionStep_travelSpeed_ext (i : Inputs.t) (r r' : recommendations) :
  travelSpeed r = travelSpeed r' ->
  travelSpeed (positionStep i r) = travelSpeed (positionStep i r').
Proof. intros Ht. unfold positionStep. branches; cbn; auto. Qed.

Lemma electrodeStep_arcGap_ext (i : Inputs.t) (r r' : recommendations) :
  arcGap r = arcGap r' ->
  arcGap (electrodeStep i r) = arcGap (electrodeStep i r').
Proof.
  intros Ha. unfold electrodeStep.
  branches;
    repeat match goal with
      | |- context [push_if_empty ?x ?vs] =>
          destruct (push_if_empty_frame x vs) as (_ & -> & _)
      end; cbn; auto.
Qed.

(** The returned travel speed is the one the position step writes. *)
Lemma returned_travelSpeed (i : Inputs.t) (r : recommendations) :
  getRecommendations i = JS.Normal r ->
  travelSpeed r = travelSpeed (positionStep i initial).
Proof.
  intros H. apply getRecommendations_inv in H as (r0 & H0 & ->).
  destruct (observationStep_frame i
              (electrodeStep i (positionStep i (rodAngleStep i r0))))
    as (_ & _ & _ & -> & _).
  destruct (electrodeStep_frame i (positionStep i (rodAngleStep i r0)))
    as (_ & _ & ->).
  apply amperageStep_frame in H0 as (_ & _ & Ht & _).
  destruct (rodAngleStep_frame i r0) as (_ & _ & Ht' & _).
  apply positionStep_travelSpeed_ext. congruence.
Qed.

(** The returned arc gap is the one the electrode step writes. *)
Lemma returned_arcGap (i : Inputs.t) (r : recommendations) :
  getRecommendations i = JS.Normal r ->
  arcGap r = arcGap (electrodeStep i initial).
Proof.
  intros H. apply getRecommendations_inv in H as (r0 & H0 & ->).
  destruct (observationStep_frame i
              (electrodeStep i (positionStep i (rodAngleStep i r0))))
    as (_ & -> & _).
  apply amperageStep_frame in H0 as (Ha & _).
  destruct (rodAngleStep_frame i r0) as (_ & Ha' & _).
  destruct (positionStep_frame i (rodAngleStep i r0)) as (_ & Ha'' & _).
  apply electrodeStep_arcGap_ext. congruence.
Qed.

(** X1.  The returned travel speed depends on the position alone: Fast
    for Vertical Down, Medium-slow, steady for Vertical Up, Medium-fast
    to prevent sagging for Horizontal, and unset for every other
    position. *)
Theorem travel_speed_by_position (i : Inputs.t) (r : recommendations) :
  getRecommendations i = JS.Normal r ->
  (Inputs.position i = "Vertical Down" -> travelSpeed r = "Fast") /\
  (Inputs.position i = "Vertical Up" ->
   travelSpeed r = "Medium-slow, steady") /\
  (Inputs.position i = "Horizontal" ->
   travelSpeed r = "Medium-fast to prevent sagging") /\
  (Inputs.position i <> "Vertical Down" ->
   Inputs.position i <> "Vertical Up" ->
   Inputs.position i <> "Horizontal" ->
   travelSpeed r = EmptyString).
Proof.
  intros Hret. rewrite (returned_travelSpeed i r Hret). unfold positionStep.
  repeat split.
  - intros ->. reflexivity.
  - intros ->. cbn. branches; reflexivity.
  - intros ->. reflexivity.
  - intros Hd Hu Hh. other_key Hd. other_key Hu. other_key Hh. reflexivity.
Qed.

(** X1 on a butt joint welded vertically up. *)
Lemma travel_speed_by_position_witness :
  getRecommendations butt_up_7018 = JS.Normal butt_up_7018_result /\
  Inputs.position butt_up_7018 = "Vertical Up" /\
  travelSpeed butt_up_7018_result = "Medium-slow, steady".
Proof.
  assert (Hret : getRecommendations butt_up_7018
                 = JS.Normal butt_up_7018_result)
    by (vm_compute; reflexivity).
  exact (conj Hret (conj eq_refl
           (proj1 (proj2 (travel_speed_by_position butt_up_7018
                            butt_up_7018_result Hret)) eq_refl))).
Defined.

(** X2.  The returned arc gap depends on the electrode alone: Medium
    for E6010 and E6011, Short to medium for E6013, Short for E7018 and
    E7024, unset for any other electrode; the engine never recommends
    the level Long. *)
Theorem arc_gap_by_electrode (i : Inputs.t) (r : recommendations) :
  getRecommendations i = JS.Normal r ->
  (Inputs.electrode i = "E6010" \/ Inputs.electrode i = "E6011" ->
   arcGap r = "Medium") /\
  (Inputs.electrode i = "E6013" -> arcGap r = "Short to medium") /\
  (Inputs.electrode i = "E7018" \/ Inputs.electrode i = "E7024" ->
   arcGap r = "Short") /\
  (JS.own electrodes (Inputs.electrode i) = None -> arcGap r = EmptyString) /\
  arcGap r <> "Long".
Proof.
  intros Hret. rewrite (returned_arcGap i r Hret). unfold electrodeStep.
  repeat split.
  - intros [-> | ->]; reflexivity.
  - intros ->. reflexivity.
  - intros [-> | ->]; reflexivity.
  - unfold electrodes, JS.own.
    repeat match goal with
      | |- context [String.eqb (Inputs.electrode i) ?k] =>
          destruct (String.eqb (Inputs.electrode i) k)
      end; cbn; intros H; try discriminate H; reflexivity.
  - branches;
      repeat match goal with
        | |- context [push_if_empty ?x ?vs] =>
            destruct (push_if_empty_frame x vs) as (_ & -> & _)
        end; cbn; discriminate.
Qed.

(** X2 on a lap joint welded with an E7024. *)
Lemma arc_gap_by_electrode_witness :
  getRecommendations lap_up_7024 = JS.Normal lap_up_7024_result /\
  (Inputs.electrode lap_up_7024 = "E7018" \/
   Inputs.electrode lap_up_7024 = "E7024") /\
  arcGap lap_up_7024_result = "Short".
Proof.
  assert (Hret : getRecommendations lap_up_7024 = JS.Normal lap_up_7024_result)
    by (vm_compute; reflexivity).
  assert (He : Inputs.electrode lap_up_7024 = "E7018" \/
               Inputs.electrode lap_up_7024 = "E7024")
    by (right; reflexivity).
  exact (conj Hret (conj He
           (proj1 (proj2 (proj2 (arc_gap_by_electrode lap_up_7024
                                   lap_up_7024_result Hret))) He))).
Defined.

(** X3.  For a butt joint the returned rod angle follows the position:
    Perpendicular when Flat, 45 degrees angled up slightly when Vertical
    Up, Nearly perpendicular when Overhead, and plain 45 degrees for a
    position that is none of these nor Vertical Down nor Horizontal. *)
Theorem butt_rod_angle_by_position (i : Inputs.t) (r : recommendations) :
  Inputs.jointType i = "Butt" ->
  getRecommendations i = JS.Normal r ->
  (Inputs.position i = "Flat" -> rodAngle r = "Perpendicular") /\
  (Inputs.position i = "Vertical Up" ->
   rodAngle r = "45° angled up slightly") /\
  (Inputs.position i = "Overhead" -> rodAngle r = "Nearly perpendicular") /\
  (Inputs.position i <> "Flat" -> Inputs.position i <> "Vertical Up" ->
   Inputs.position i <> "Overhead" -> Inputs.position i <> "Vertical Down" ->
   Inputs.position i <> "Horizontal" -> rodAngle r = "45°").
Proof.
  intros Hj Hret. rewrite (returned_rodAngle i r Hret).
  unfold positionStep, rodAngleStep. rewrite Hj. cbn.
  repeat split.
  - intros ->. reflexivity.
  - intros ->. cbn. branches; reflexivity.
  - intros ->. reflexivity.
  - intros Hf Hu Ho Hd Hh.
    other_key Hf. other_key Hu. other_key Ho. other_key Hd. other_key Hh.
    reflexivity.
Qed.

(** X3 on a butt joint welded vertically up. *)
Lemma butt_rod_angle_by_position_witness :
  Inputs.jointType butt_up_7018 = "Butt" /\
  getRecommendations butt_up_7018 = JS.Normal butt_up_7018_result /\
  Inputs.position butt_up_7018 = "Vertical Up" /\
  rodAngle butt_up_7018_result = "45° angled up slightly".
Proof.
  assert (Hret : getRecommendations butt_up_7018
                 = JS.Normal butt_up_7018_result)
    by (vm_compute; reflexivity).
  exact (conj eq_refl (conj Hret (conj eq_refl
           (proj1 (proj2 (butt_rod_angle_by_position butt_up_7018
                            butt_up_7018_result eq_refl Hret)) eq_refl)))).
Defined.

(** X4.  The returned rod angle is unset exactly when the joint type is
    not a key of the [jointTypes] table and the position is neither
    Vertical Down nor Horizontal. *)
Theorem rod_angle_unset_iff (i : Inputs.t) (r : recommendations) :
  getRecommendations i = JS.Normal r ->
  (rodAngle r = EmptyString <->
   JS.own jointTypes (Inputs.jointType i) = None /\
   Inputs.position i <> "Vertical Down" /\
   Inputs.position i <> "Horizontal").
Proof.
  intros Hret. rewrite (returned_rodAngle i r Hret).
  unfold positionStep, rodAngleStep, jointTypes, JS.own.
  destruct (String.eqb_spec (Inputs.position i) "Vertical Down") as [Hd | Hd].
  { cbn.
    split; [ intros H; discriminate H | intros (_ & H & _); contradiction ]. }
  destruct (String.eqb_spec (Inputs.position i) "Horizontal") as [Hh | Hh].
  { rewrite Hh. cbn.
    split; [ intros H; discriminate H | intros (_ & _ & H); contradiction ]. }
  assert (Hpos : forall x : recommendations,
             rodAngle
               (if String.eqb (Inputs.position i) "Vertical Up"
                then
                  let r1 := set_travelSpeed x "Medium-slow, steady" in
                  if String.eqb (Inputs.electrode i) "E7018"
                  then push_motionPattern r1 ["Side-to-side"]
                  else if String.eqb (Inputs.electrode i) "E6010"
                          || String.eqb (Inputs.electrode i) "E6011"
                       then push_motionPattern
                              (push_motionPattern r1 ["Step/Whip"])
                              ["Circular"]
                       else r1
                else x) = rodAngle x).
  { intros x. branches; reflexivity. }
  rewrite Hpos.
  destruct (String.eqb (Inputs.jointType i) "Butt").
  { cbn.
    branches;
      (split; [ intros H; discriminate H | intros (H & _); discriminate H ]). }
  destruct (String.eqb (Inputs.jointType i) "Lap").
  { cbn. split; [ intros H; discriminate H | intros (H & _); discriminate H ]. }
  destruct (String.eqb (Inputs.jointType i) "T").
  { cbn. split; [ intros H; discriminate H | intros (H & _); discriminate H ]. }
  destruct (String.eqb (Inputs.jointType i) "Corner").
  { cbn. split; [ intros H; discriminate H | intros (H & _); discriminate H ]. }
  cbn. split; auto.
Qed.

(** X4 on a joint type the table does not know. *)
Lemma rod_angle_unset_iff_witness :
  getRecommendations edge_flat = JS.Normal edge_flat_result /\
  JS.own jointTypes (Inputs.jointType edge_flat) = None.
Proof.
  assert (Hret : getRecommendations edge_flat = JS.Normal edge_flat_result)
    by (vm_compute; reflexivity).
  exact (conj Hret
           (proj1 (proj1 (rod_angle_unset_iff edge_flat edge_flat_result
                            Hret) eq_refl))).
Defined.

(** X5.  For a corner joint the returned rod angle is to bisect the
    corner angle, in every position other than Vertical Down and
    Horizontal. *)
Theorem corner_rod_angle (i : Inputs.t) (r : recommendations) :
  Inputs.jointType i = "Corner" ->
  Inputs.position i <> "Vertical Down" -> Inputs.position i <> "Horizontal" ->
  getRecommendations i = JS.Normal r ->
  rodAngle r = "Bisect the corner angle".
Proof.
  intros Hj Hd Hh Hret. rewrite (returned_rodAngle i r Hret).
  unfold positionStep, rodAngleStep. rewrite Hj. cbn.
  other_key Hd. other_key Hh. branches; reflexivity.
Qed.

(** X5 on a corner joint welded overhead. *)
Lemma corner_rod_angle_witness :
  Inputs.jointType (with_jointType T_overhead "Corner") = "Corner" /\
  Inputs.position (with_jointType T_overhead "Corner") <> "Vertical Down" /\
  Inputs.position (with_jointType T_overhead "Corner") <> "Horizontal" /\
  getRecommendations (with_jointType T_overhead "Corner")
  = JS.Normal (set_rodAngle T_overhead_result "Bisect the corner angle") /\
  rodAngle (set_rodAngle T_overhead_result "Bisect the corner angle")
  = "Bisect the corner angle".
Proof.
  assert (Hd : Inputs.position (with_jointType T_overhead "Corner")
               <> "Vertical Down") by (cbn; discriminate).
  assert (Hh : Inputs.position (with_jointType T_overhead "Corner")
               <> "Horizontal") by (cbn; discriminate).
  assert (Hret : getRecommendations (with_jointType T_overhead "Corner")
                 = JS.Normal
                     (set_rodAngle T_overhead_result
                        "Bisect the corner angle"))
    by (vm_compute; reflexivity).
  exact (conj eq_refl (conj Hd (conj Hh (conj Hret
           (corner_rod_angle (with_jointType T_overhead "Corner")
              (set_rodAngle T_overhead_result "Bisect the corner angle")
              eq_refl Hd Hh Hret))))).
Defined.

(** *** The engine and the [electrodes] table *)

(** X6.  Unless the position is Vertical Up and the electrode one of
    E7018, E6010, E6011, the returned motion patterns are exactly the
    [techniqueOptions] that the [electrodes] table lists for the
    electrode, in the table's order. *)
Theorem motion_pattern_is_technique_options
  (i : Inputs.t) (r : recommendations) (options : list string) :
  techniqueOptions_of (Inputs.electrode i) = Some options ->
  Inputs.position i <> "Vertical Up" \/
  Inputs.electrode i = "E6013" \/ Inputs.electrode i = "E7024" ->
  getRecommendations i = JS.Normal r ->
  motionPattern r = options.
Proof.
  intros Hopt Hcase Hret. rewrite (returned_motionPattern i r Hret).
  revert Hopt. unfold techniqueOptions_of, electrodes, JS.own.
  assert (Hseed : motionPattern (positionStep i initial) = []).
  { unfold positionStep. destruct Hcase as [Hp | [-> | ->]].
    - other_key Hp. branches; reflexivity.
    - cbn. branches; reflexivity.
    - cbn. branches; reflexivity. }
  unfold electrodeStep, push_if_empty.
  repeat match goal with
    | |- context [String.eqb (Inputs.electrode i) ?k] =>
        destruct (String.eqb (Inputs.electrode i) k)
    end; cbn; repeat (rewrite Hseed; cbn); intros [= <-]; reflexivity.
Qed.

(** X6 on a corner joint welded vertically down with an E6011. *)
Lemma motion_pattern_is_technique_options_witness :
  techniqueOptions_of (Inputs.electrode corner_down)
  = Some ["Circular"; "Zigzag"; "Whip/Step"] /\
  (Inputs.position corner_down <> "Vertical Up" \/
   Inputs.electrode corner_down = "E6013" \/
   Inputs.electrode corner_down = "E7024") /\
  getRecommendations corner_down = JS.Normal corner_down_result /\
  motionPattern corner_down_result = ["Circular"; "Zigzag"; "Whip/Step"].
Proof.
  assert (Hcase : Inputs.position corner_down <> "Vertical Up" \/
                  Inputs.electrode corner_down = "E6013" \/
                  Inputs.electrode corner_down = "E7024")
    by (left; cbn; discriminate).
  assert (Hret : getRecommendations corner_down = JS.Normal corner_down_result)
    by (vm_compute; reflexivity).
  exact (conj eq_refl (conj Hcase (conj Hret
           (motion_pattern_is_technique_options corner_down
              corner_down_result _ eq_refl Hcase Hret)))).
Defined.

(** X7.  With position Vertical Up and electrode E6010 or E6011 the
    returned motion patterns are exactly Step/Whip, Circular, and the
    first of them is not among the [techniqueOptions] of the electrode,
    which spell it Whip/Step. *)
Theorem vertical_up_fast_freeze_pattern
  (i : Inputs.t) (r : recommendations) :
  Inputs.position i = "Vertical Up" ->
  Inputs.electrode i = "E6010" \/ Inputs.electrode i = "E6011" ->
  getRecommendations i = JS.Normal r ->
  motionPattern r = ["Step/Whip"; "Circular"] /\
  exists options,
    techniqueOptions_of (Inputs.electrode i) = Some options /\
    ~ In "Step/Whip" options.
Proof.
  intros Hp He Hret. rewrite (returned_motionPattern i r Hret).
  unfold electrodeStep, positionStep. rewrite Hp.
  destruct He as [-> | ->]; (split; [ reflexivity | ]);
    (eexists; split; [ reflexivity | ]);
    cbn; intros H; repeat destruct H as [H | H]; discriminate H || exact H.
Qed.

(** X7 on an E6010 welded vertically up. *)
Lemma vertical_up_fast_freeze_pattern_witness :
  Inputs.position lap_up_6010 = "Vertical Up" /\
  (Inputs.electrode lap_up_6010 = "E6010" \/
   Inputs.electrode lap_up_6010 = "E6011") /\
  getRecommendations lap_up_6010 = JS.Normal lap_up_6010_result /\
  motionPattern lap_up_6010_result = ["Step/Whip"; "Circular"].
Proof.
  assert (He : Inputs.electrode lap_up_6010 = "E6010" \/
               Inputs.electrode lap_up_6010 = "E6011")
    by (left; reflexivity).
  assert (Hret : getRecommendations lap_up_6010 = JS.Normal lap_up_6010_result)
    by (vm_compute; reflexivity).
  exact (conj eq_refl (conj He (conj Hret
           (proj1 (vertical_up_fast_freeze_pattern lap_up_6010
                     lap_up_6010_result eq_refl He Hret))))).
Defined.

(** X8.  The engine knows exactly the electrodes of the [electrodes]
    table: the returned motion pattern is empty, and the arc gap unset,
    if and only if the electrode is not a key of that table. *)
Theorem unknown_electrode_iff (i : Inputs.t) (r : recommendations) :
  getRecommendations i = JS.Normal r ->
  (motionPattern r = [] <-> JS.own electrodes (Inputs.electrode i) = None) /\
  (arcGap r = EmptyString <-> JS.own electrodes (Inputs.electrode i) = None).
Proof.
  intros Hret. rewrite (returned_motionPattern i r Hret).
  rewrite (returned_arcGap i r Hret).
  unfold electrodeStep, positionStep, push_if_empty, electrodes, JS.own.
  repeat match goal with
    | |- context [String.eqb (Inputs.electrode i) ?k] =>
        destruct (String.eqb (Inputs.electrode i) k)
    end; cbn;
    repeat match goal with
      | |- context [String.eqb (Inputs.position i) ?k] =>
          destruct (String.eqb (Inputs.position i) k)
      end; cbn;
    (split; split; intros H; try discriminate H; reflexivity).
Qed.

(** X8 on the unknown electrode E9999. *)
Lemma unknown_electrode_iff_witness :
  getRecommendations unknown_rod = JS.Normal unknown_rod_result /\
  JS.own electrodes (Inputs.electrode unknown_rod) = None.
Proof.
  assert (Hret : getRecommendations unknown_rod = JS.Normal unknown_rod_result)
    by (vm_compute; reflexivity).
  exact (conj Hret
           (proj1 (proj1 (unknown_electrode_iff unknown_rod
                            unknown_rod_result Hret)) eq_refl)).
Defined.

(** *** Adjustments *)

Lemma mem_In (s : string) (l : list string) : mem s l = true <-> In s l.
Proof.
  unfold mem. rewrite existsb_exists. split.
  - intros (x & Hin & Heq). apply String.eqb_eq in Heq. now subst.
  - intros Hin. exists s. split; [ exact Hin | apply String.eqb_refl ].
Qed.

Lemma distinct_NoDup (l : list string) : distinct l = true -> NoDup l.
Proof.
  induction l as [|s rest IH]; cbn; intros H.
  - constructor.
  - apply andb_prop in H as (Hs & Hrest). constructor.
    + intros Hin. apply mem_In in Hin. rewrite Hin in Hs. discriminate Hs.
    + now apply IH.
Qed.

(** What the electrode step contributes to the adjustments. *)
Lemma electrodeStep_adjustments (i : Inputs.t) :
  adjustments (electrodeStep i initial)
  = if String.eqb (Inputs.electrode i) "E7018" then [slag_message] else [].
Proof.
  unfold electrodeStep.
  destruct (String.eqb_spec (Inputs.electrode i) "E6010") as [-> | _];
    [ reflexivity | ].
  destruct (String.eqb_spec (Inputs.electrode i) "E6011") as [-> | _];
    [ reflexivity | ].
  destruct (String.eqb_spec (Inputs.electrode i) "E6013") as [-> | _];
    [ reflexivity | ].
  destruct (String.eqb (Inputs.electrode i) "E7018"); [ reflexivity | ].
  cbn. destruct (String.eqb (Inputs.electrode i) "E7024"); reflexivity.
Qed.

(** What the observation step appends: at most four messages, all
    different from each other and from the slag message. *)
Lemma observationStep_appends (i : Inputs.t) (r : recommendations) :
  exists l,
    adjustments (observationStep i r) = (adjustments r ++ l)%list /\
    distinct (slag_message :: l) = true /\ (List.length l <= 4)%nat.
Proof.
  unfold observationStep.
  branches; cbn;
    repeat rewrite <- app_assoc; cbn;
    (eexists; split;
     [ try reflexivity; symmetry; apply app_nil_r
     | split; [ reflexivity | cbn; lia ] ]).
Qed.

(** X9.  The returned adjustments are, in this order, what the
    electrode contributes, then the puddle fluidity, the puddle spread,
    the edge tie-in and the arc stability: each contributes one message
    or none, a missing observation counting as nominal. *)
Theorem adjustments_by_source (i : Inputs.t) (r : recommendations) :
  getRecommendations i = JS.Normal r ->
  adjustments r
  = (electrode_messages (Inputs.electrode i)
     ++ puddle_messages (puddle_of i)
     ++ spread_messages (spread_of i)
     ++ tieIn_messages (tieIn_of i)
     ++ stability_messages (Inputs.electrode i) (Inputs.machineType i)
          (stability_of i))%list.
Proof.
  intros Hret. rewrite (returned_adjustments i r Hret).
  assert (H : forall r0,
             adjustments (observationStep i r0)
             = (adjustments r0
                ++ puddle_messages (puddle_of i)
                ++ spread_messages (spread_of i)
                ++ tieIn_messages (tieIn_of i)
                ++ stability_messages (Inputs.electrode i)
                     (Inputs.machineType i) (stability_of i))%list).
  { intros r0.
    unfold observationStep, puddle_messages, spread_messages, tieIn_messages,
      stability_messages, puddle_of, spread_of, tieIn_of, stability_of.
    branches; cbn; rewrite <- ?app_assoc; cbn; rewrite ?app_nil_r;
      reflexivity. }
  rewrite H, electrodeStep_adjustments. reflexivity.
Qed.

(** X9 on an E7018 on an AC machine with a very fluid, wide puddle
    and an unstable arc. *)
Lemma adjustments_by_source_witness :
  getRecommendations fluid_7018 = JS.Normal fluid_7018_result /\
  adjustments fluid_7018_result
  = (electrode_messages (Inputs.electrode fluid_7018)
     ++ puddle_messages (puddle_of fluid_7018)
     ++ spread_messages (spread_of fluid_7018)
     ++ tieIn_messages (tieIn_of fluid_7018)
     ++ stability_messages (Inputs.electrode fluid_7018)
          (Inputs.machineType fluid_7018) (stability_of fluid_7018))%list.
Proof.
  assert (Hret : getRecommendations fluid_7018 = JS.Normal fluid_7018_result)
    by (vm_compute; reflexivity).
  exact (conj Hret (adjustments_by_source fluid_7018 fluid_7018_result Hret)).
Defined.

(** X10.  When no observation is off nominal (puddle neither Stiff nor
    VeryFluid, spread neither Narrow nor Wide, tie-in not Poor, arc not
    Unstable; a missing observation counts as nominal) the engine
    returns no adjustment, except for electrode E7018, where it returns
    the one message about the slag. *)
Theorem nominal_observations_adjustments
  (i : Inputs.t) (r : recommendations) :
  puddle_of i <> "Stiff" -> puddle_of i <> "VeryFluid" ->
  spread_of i <> "Narrow" -> spread_of i <> "Wide" ->
  tieIn_of i <> "Poor" -> stability_of i <> "Unstable" ->
  getRecommendations i = JS.Normal r ->
  (Inputs.electrode i = "E7018" -> adjustments r = [slag_message]) /\
  (Inputs.electrode i <> "E7018" -> adjustments r = []).
Proof.
  unfold puddle_of, spread_of, tieIn_of, stability_of.
  intros H1 H2 H3 H4 H5 H6 Hret. rewrite (returned_adjustments i r Hret).
  assert (E : adjustments (observationStep i (electrodeStep i initial))
              = adjustments (electrodeStep i initial)).
  { unfold observationStep.
    other_key H1. other_key H2. other_key H3. other_key H4.
    other_key H5. other_key H6. reflexivity. }
  rewrite E, electrodeStep_adjustments. split.
  - intros ->. reflexivity.
  - intros He. other_key He. reflexivity.
Qed.

(** X10 on the parameters the visualization starts from, read with an
    E7018. *)
Lemma nominal_observations_adjustments_witness :
  puddle_of butt_up_7018 <> "Stiff" /\
  puddle_of butt_up_7018 <> "VeryFluid" /\
  spread_of butt_up_7018 <> "Narrow" /\
  spread_of butt_up_7018 <> "Wide" /\
  tieIn_of butt_up_7018 <> "Poor" /\
  stability_of butt_up_7018 <> "Unstable" /\
  getRecommendations butt_up_7018 = JS.Normal butt_up_7018_result /\
  adjustments butt_up_7018_result = [slag_message].
Proof.
  assert (H1 : puddle_of butt_up_7018 <> "Stiff") by (cbn; discriminate).
  assert (H2 : puddle_of butt_up_7018 <> "VeryFluid") by (cbn; discriminate).
  assert (H3 : spread_of butt_up_7018 <> "Narrow") by (cbn; discriminate).
  assert (H4 : spread_of butt_up_7018 <> "Wide") by (cbn; discriminate).
  assert (H5 : tieIn_of butt_up_7018 <> "Poor") by (cbn; discriminate).
  assert (H6 : stability_of butt_up_7018 <> "Unstable")
    by (cbn; discriminate).
  assert (Hret : getRecommendations butt_up_7018
                 = JS.Normal butt_up_7018_result)
    by (vm_compute; reflexivity).
  exact (conj H1 (conj H2 (conj H3 (conj H4 (conj H5 (conj H6 (conj Hret
           (proj1 (nominal_observations_adjustments butt_up_7018
                     butt_up_7018_result H1 H2 H3 H4 H5 H6 Hret)
              eq_refl)))))))).
Defined.

(** X11.  The engine never returns more than five adjustments, never
    more than four for an electrode other than E7018, and never the
    same message twice. *)
Theorem adjustments_bounded_and_distinct
  (i : Inputs.t) (r : recommendations) :
  getRecommendations i = JS.Normal r ->
  (List.length (adjustments r) <= 5)%nat /\
  (Inputs.electrode i <> "E7018" -> (List.length (adjustments r) <= 4)%nat) /\
  NoDup (adjustments r).
Proof.
  intros Hret. rewrite (returned_adjustments i r Hret).
  destruct (observationStep_appends i (electrodeStep i initial))
    as (l & -> & Hd & Hl).
  rewrite electrodeStep_adjustments.
  destruct (String.eqb_spec (Inputs.electrode i) "E7018") as [He | He].
  - repeat split.
    + cbn. lia.
    + intros H. contradiction.
    + now apply distinct_NoDup.
  - cbn [app]. repeat split; try lia.
    cbn [distinct] in Hd. apply andb_prop in Hd as (_ & Hd).
    now apply distinct_NoDup.
Qed.

(** X11 on an E6010 on an AC machine with every observation off nominal. *)
Lemma adjustments_bounded_and_distinct_witness :
  getRecommendations troubled = JS.Normal troubled_result /\
  (List.length (adjustments troubled_result) <= 5)%nat /\
  NoDup (adjustments troubled_result).
Proof.
  assert (Hret : getRecommendations troubled = JS.Normal troubled_result)
    by (vm_compute; reflexivity).
  exact (conj Hret
           (conj (proj1 (adjustments_bounded_and_distinct troubled
                           troubled_result Hret))
                 (proj2 (proj2 (adjustments_bounded_and_distinct troubled
                                  troubled_result Hret))))).
Defined.

(** *** Which parameter reaches which field *)

(** X12.  The machine type matters only for an E6010 with an unstable
    arc: for any other electrode, or when the arc is not observed to be
    Unstable, replacing the machine type changes nothing in what the
    engine does. *)
Theorem machine_type_matters_only_for_unstable_E6010
  (i : Inputs.t) (machineType : string) :
  Inputs.electrode i <> "E6010" \/ stability_of i <> "Unstable" ->
  getRecommendations (with_machineType i machineType) = getRecommendations i.
Proof.
  intros Hcase. unfold getRecommendations.
  change (amperageStep (with_machineType i machineType) initial)
    with (amperageStep i initial).
  destruct (amperageStep i initial) as [r0|]; [ | reflexivity ].
  cbn [JS.bind]. f_equal.
  change (rodAngleStep (with_machineType i machineType) r0)
    with (rodAngleStep i r0).
  change (positionStep (with_machineType i machineType))
    with (positionStep i).
  change (electrodeStep (with_machineType i machineType))
    with (electrodeStep i).
  generalize (electrodeStep i (positionStep i (rodAngleStep i r0))).
  intros r1. unfold observationStep, stability_of in *.
  cbn [with_machineType Inputs.electrode Inputs.machineType
       Inputs.observedPuddle Inputs.observedSpread Inputs.observedTieIn
       Inputs.observedStability].
  destruct Hcase as [He | Hs].
  - other_key He. reflexivity.
  - other_key Hs. reflexivity.
Qed.

(** X12 on an E7018, moved from an AC to a DC- machine. *)
Lemma machine_type_matters_only_for_unstable_E6010_witness :
  (Inputs.electrode butt_up_7018 <> "E6010" \/
   stability_of butt_up_7018 <> "Unstable") /\
  getRecommendations (with_machineType butt_up_7018 "DC-")
  = getRecommendations butt_up_7018.
Proof.
  assert (Hcase : Inputs.electrode butt_up_7018 <> "E6010" \/
                  stability_of butt_up_7018 <> "Unstable")
    by (left; cbn; discriminate).
  exact (conj Hcase
           (machine_type_matters_only_for_unstable_E6010 butt_up_7018 "DC-"
              Hcase)).
Defined.

(** The amperage step reads the electrode, its size, the position and
    the metal thickness, and nothing else. *)
Lemma amperageStep_reads (i i' : Inputs.t) (r : recommendations) :
  Inputs.electrode i' = Inputs.electrode i ->
  Inputs.electrodeSize i' = Inputs.electrodeSize i ->
  Inputs.position i' = Inputs.position i ->
  Inputs.metalThickness i' = Inputs.metalThickness i ->
  amperageStep i' r = amperageStep i r.
Proof. intros He Hs Hp Ht. unfold amperageStep. now rewrite He, Hs, Hp, Ht. Qed.

(** Two snapshots on which the amperage step agrees throw together and
    return the same amperage. *)
Lemma same_amperageStep (i i' : Inputs.t) :
  amperageStep i' initial = amperageStep i initial ->
  (getRecommendations i' = JS.TypeError <->
   getRecommendations i = JS.TypeError) /\
  forall r r',
    getRecommendations i = JS.Normal r ->
    getRecommendations i' = JS.Normal r' ->
    amperage r' = amperage r.
Proof.
  intros H0. split.
  - rewrite !getRecommendations_throws.
    rewrite <- (amperageStep_throws i initial).
    rewrite <- (amperageStep_throws i' initial). now rewrite H0.
  - intros r r' Hret Hret'.
    destruct (getRecommendations_inv _ _ Hret) as (r0 & Hr0 & _).
    destruct (getRecommendations_inv _ _ Hret') as (r0' & Hr0' & _).
    rewrite (returned_amperage i r r0 Hr0 Hret).
    rewrite (returned_amperage i' r' r0' Hr0' Hret').
    congruence.
Qed.

(** X13.  The observations reach the adjustments only: giving a
    snapshot any four observations changes neither whether the engine
    throws nor the amperage, arc gap, rod angle, travel speed and motion
    pattern it returns. *)
Theorem observations_reach_adjustments_only
  (i : Inputs.t) (puddle spread tieIn stability : string) :
  (getRecommendations (observed i puddle spread tieIn stability)
   = JS.TypeError <-> getRecommendations i = JS.TypeError) /\
  forall r r',
    getRecommendations i = JS.Normal r ->
    getRecommendations (observed i puddle spread tieIn stability)
    = JS.Normal r' ->
    amperage r' = amperage r /\ arcGap r' = arcGap r /\
    rodAngle r' = rodAngle r /\ travelSpeed r' = travelSpeed r /\
    motionPattern r' = motionPattern r.
Proof.
  set (i' := observed i puddle spread tieIn stability).
  destruct (same_amperageStep i i') as (Hthrow & Hamp);
    [ apply amperageStep_reads; reflexivity | ].
  split; [ exact Hthrow | ].
  intros r r' Hret Hret'.
  split; [ exact (Hamp r r' Hret Hret') | ].
  rewrite (returned_arcGap _ _ Hret), (returned_arcGap _ _ Hret').
  rewrite (returned_rodAngle _ _ Hret), (returned_rodAngle _ _ Hret').
  rewrite (returned_travelSpeed _ _ Hret), (returned_travelSpeed _ _ Hret').
  rewrite (returned_motionPattern _ _ Hret),
    (returned_motionPattern _ _ Hret').
  repeat split; reflexivity.
Qed.

(** X14.  The metal thickness reaches the amperage only: replacing it
    changes neither whether the engine throws nor any returned field
    other than the amperage. *)
Theorem metal_thickness_reaches_amperage_only
  (i : Inputs.t) (metalThickness : string) :
  (getRecommendations (with_metalThickness i metalThickness) = JS.TypeError
   <-> getRecommendations i = JS.TypeError) /\
  forall r r',
    getRecommendations i = JS.Normal r ->
    getRecommendations (with_metalThickness i metalThickness) = JS.Normal r' ->
    arcGap r' = arcGap r /\ rodAngle r' = rodAngle r /\
    travelSpeed r' = travelSpeed r /\ motionPattern r' = motionPattern r /\
    adjustments r' = adjustments r.
Proof.
  split.
  - rewrite !getRecommendations_throws. reflexivity.
  - intros r r' Hret Hret'.
    rewrite (returned_arcGap _ _ Hret), (returned_arcGap _ _ Hret').
    rewrite (returned_rodAngle _ _ Hret), (returned_rodAngle _ _ Hret').
    rewrite (returned_travelSpeed _ _ Hret), (returned_travelSpeed _ _ Hret').
    rewrite (returned_motionPattern _ _ Hret),
      (returned_motionPattern _ _ Hret').
    rewrite (returned_adjustments _ _ Hret), (returned_adjustments _ _ Hret').
    repeat split; reflexivity.
Qed.

(** X15.  The joint type reaches the rod angle only: replacing it
    changes neither whether the engine throws nor any returned field
    other than the rod angle; and for positions Vertical Down and
    Horizontal it does not change the rod angle either. *)
Theorem joint_type_reaches_rod_angle_only
  (i : Inputs.t) (jointType : string) :
  (getRecommendations (with_jointType i jointType) = JS.TypeError
   <-> getRecommendations i = JS.TypeError) /\
  forall r r',
    getRecommendations i = JS.Normal r ->
    getRecommendations (with_jointType i jointType) = JS.Normal r' ->
    amperage r' = amperage r /\ arcGap r' = arcGap r /\
    travelSpeed r' = travelSpeed r /\ motionPattern r' = motionPattern r /\
    adjustments r' = adjustments r /\
    (Inputs.position i = "Vertical Down" \/ Inputs.position i = "Horizontal" ->
     rodAngle r' = rodAngle r).
Proof.
  destruct (same_amperageStep i (with_jointType i jointType))
    as (Hthrow & Hamp); [ apply amperageStep_reads; reflexivity | ].
  split; [ exact Hthrow | ].
  intros r r' Hret Hret'.
  split; [ exact (Hamp r r' Hret Hret') | ].
  rewrite (returned_arcGap _ _ Hret), (returned_arcGap _ _ Hret').
  rewrite (returned_travelSpeed _ _ Hret), (returned_travelSpeed _ _ Hret').
  rewrite (returned_motionPattern _ _ Hret),
    (returned_motionPattern _ _ Hret').
  rewrite (returned_adjustments _ _ Hret), (returned_adjustments _ _ Hret').
  repeat split; try reflexivity.
  rewrite (returned_rodAngle _ _ Hret), (returned_rodAngle _ _ Hret').
  unfold positionStep. cbn [with_jointType Inputs.position Inputs.electrode].
  intros [-> | ->]; reflexivity.
Qed.

(** *** Amperage *)

Lemma adjustPosition_other (p : string) (range : JS.number * JS.number) :
  p <> "Vertical Up" -> p <> "Overhead" -> adjustPosition p range = range.
Proof.
  intros Hup Hover. destruct range as [min max]. unfold adjustPosition.
  other_key Hup. other_key Hover. reflexivity.
Qed.

Lemma roundedRange_class (range t p : string) :
  exists t' p',
    In t' thickness_classes /\ In p' position_classes /\
    roundedRange range t p = roundedRange range t' p'.
Proof.
  destruct (adjustThickness_class t) as (t' & Ht' & Ht).
  destruct (adjustPosition_class p) as (p' & Hp' & Hp).
  exists t', p'. repeat split; try assumption.
  unfold roundedRange, adjustedRange. now rewrite Ht, Hp.
Qed.

Lemma all_within_rated :
  forallb
    (fun entry =>
       forallb
         (fun t => forallb (within_rated (snd entry) t) position_classes)
         thickness_classes)
    table_entries = true.
Proof. vm_compute. reflexivity. Qed.

Lemma all_thin_below_thick :
  forallb
    (fun entry => forallb (thin_below_thick (snd entry)) position_classes)
    table_entries = true.
Proof. vm_compute. reflexivity. Qed.

Lemma all_round_trip :
  forallb
    (fun entry =>
       String.eqb (formatRange (roundedRange (snd entry) Medium "Flat"))
         (snd entry))
    table_entries = true.
Proof. vm_compute. reflexivity. Qed.

(** With both keys in the tables the engine returns an amperage made
    of the two rounded bounds, which are integers in order. *)
Lemma returned_bounds (i : Inputs.t) (range : string) :
  range_of (Inputs.electrodeSize i) (Inputs.electrode i) = Some range ->
  exists r lo hi,
    getRecommendations i = JS.Normal r /\
    roundedRange range (Inputs.metalThickness i) (Inputs.position i)
    = (JS.RInt lo, JS.RInt hi) /\
    amperage r = JS.string_of_Z lo ++ "-" ++ JS.string_of_Z hi ++ "A" /\
    lo <= hi.
Proof.
  intros Hrange.
  destruct (getRecommendations_amperage i range Hrange) as (r & Hret & Hamp).
  pose proof (table_ranges_ordered _ _ _ (Inputs.metalThickness i)
                (Inputs.position i) (range_of_table _ _ _ Hrange)) as Hord.
  destruct (roundedRange range _ _) as [[lo| |] [hi| |]]; try discriminate.
  exists r, lo, hi. repeat split; try assumption.
  cbn in Hord. lia.
Qed.

(** X16.  The recommended amperage never leaves the range the table
    rates the electrode for: with both keys in the tables, whatever the
    thickness and the position, the returned bounds [lo-hi] satisfy
    [a <= lo <= hi <= b], where [a-b] is the table's range. *)
Theorem amperage_within_rated_range (i : Inputs.t) (range : string) :
  range_of (Inputs.electrodeSize i) (Inputs.electrode i) = Some range ->
  exists r a b lo hi,
    getRecommendations i = JS.Normal r /\
    parseRange range = (JS.of_Z a, JS.of_Z b) /\
    amperage r = JS.string_of_Z lo ++ "-" ++ JS.string_of_Z hi ++ "A" /\
    a <= lo /\ lo <= hi /\ hi <= b.
Proof.
  intros Hrange.
  destruct (returned_bounds i range Hrange)
    as (r & lo & hi & Hret & Hround & Hamp & Hle).
  pose proof (range_of_table _ _ _ Hrange) as Hin.
  destruct (roundedRange_class range (Inputs.metalThickness i)
              (Inputs.position i)) as (t' & p' & Ht' & Hp' & E).
  pose proof (proj1 (forallb_forall _ _) all_within_rated _ Hin) as H1.
  pose proof (proj1 (forallb_forall _ _) H1 _ Ht') as H2.
  pose proof (proj1 (forallb_forall _ _) H2 _ Hp') as H3.
  cbn [snd] in H3. unfold within_rated in H3. rewrite <- E, Hround in H3.
  destruct (integral (fst (parseRange range))) as [a|] eqn:Ea;
    [ | discriminate ].
  destruct (integral (snd (parseRange range))) as [b|] eqn:Eb;
    [ | discriminate ].
  apply integral_of_Z in Ea, Eb. apply andb_prop in H3 as (Hlo & Hhi).
  exists r, a, b, lo, hi. repeat split; try assumption; try lia.
  rewrite (surjective_pairing (parseRange range)). congruence.
Qed.

(** X16 on a 5/32 inch E7024 on thin plate, vertical up. *)
Lemma amperage_within_rated_range_witness :
  range_of (Inputs.electrodeSize lap_up_7024) (Inputs.electrode lap_up_7024)
  = Some "180-250A" /\
  exists r a b lo hi,
    getRecommendations lap_up_7024 = JS.Normal r /\
    parseRange "180-250A" = (JS.of_Z a, JS.of_Z b) /\
    amperage r = JS.string_of_Z lo ++ "-" ++ JS.string_of_Z hi ++ "A" /\
    a <= lo /\ lo <= hi /\ hi <= b.
Proof.
  exact (conj eq_refl
           (amperage_within_rated_range lap_up_7024 "180-250A" eq_refl)).
Defined.

(** The position acts on the rounded range as one of its three
    representatives does, whatever the thickness. *)
Lemma roundedRange_position_class (range p : string) :
  exists p',
    In p' position_classes /\
    forall t, roundedRange range t p = roundedRange range t p'.
Proof.
  destruct (adjustPosition_class p) as (p' & Hp' & Hadj).
  exists p'. split; [ exact Hp' | ].
  intros t. unfold roundedRange, adjustedRange. now rewrite Hadj.
Qed.

(** X17.  Thin metal is always welded colder than thick metal: for
    every size and electrode of the tables and every position, the
    upper bound returned for thickness Thin lies strictly below the
    lower bound returned for thickness Thick. *)
Theorem thin_range_below_thick_range (i : Inputs.t) (range : string) :
  range_of (Inputs.electrodeSize i) (Inputs.electrode i) = Some range ->
  exists r r' lo hi lo' hi',
    getRecommendations (with_metalThickness i Thin) = JS.Normal r /\
    amperage r = JS.string_of_Z lo ++ "-" ++ JS.string_of_Z hi ++ "A" /\
    getRecommendations (with_metalThickness i Thick) = JS.Normal r' /\
    amperage r' = JS.string_of_Z lo' ++ "-" ++ JS.string_of_Z hi' ++ "A" /\
    hi < lo'.
Proof.
  intros Hrange.
  destruct (returned_bounds (with_metalThickness i Thin) range Hrange)
    as (r & lo & hi & Hret & Hround & Hamp & _).
  destruct (returned_bounds (with_metalThickness i Thick) range Hrange)
    as (r' & lo' & hi' & Hret' & Hround' & Hamp' & _).
  cbn [with_metalThickness Inputs.metalThickness Inputs.position]
    in Hround, Hround'.
  destruct (roundedRange_position_class range (Inputs.position i))
    as (p' & Hp' & E).
  rewrite E in Hround, Hround'.
  pose proof (proj1 (forallb_forall _ _) all_thin_below_thick _
                (range_of_table _ _ _ Hrange)) as H1.
  pose proof (proj1 (forallb_forall _ _) H1 _ Hp') as H2.
  cbn [snd] in H2. unfold thin_below_thick in H2.
  rewrite Hround, Hround' in H2. apply Z.ltb_lt in H2.
  exists r, r', lo, hi, lo', hi'. repeat split; assumption.
Qed.

(** X17 on a 5/32 inch E7018 welded overhead: 140-167A on thin plate,
    185-212A on thick plate. *)
Lemma thin_range_below_thick_range_witness :
  range_of (Inputs.electrodeSize T_overhead) (Inputs.electrode T_overhead)
  = Some "140-215A" /\
  exists r r' lo hi lo' hi',
    getRecommendations (with_metalThickness T_overhead Thin) = JS.Normal r /\
    amperage r = JS.string_of_Z lo ++ "-" ++ JS.string_of_Z hi ++ "A" /\
    getRecommendations (with_metalThickness T_overhead Thick)
    = JS.Normal r' /\
    amperage r' = JS.string_of_Z lo' ++ "-" ++ JS.string_of_Z hi' ++ "A" /\
    hi < lo'.
Proof.
  exact (conj eq_refl
           (thin_range_below_thick_range T_overhead "140-215A" eq_refl)).
Defined.

(** X18.  For a thickness other than Thin and Thick and a position
    other than Vertical Up and Overhead, parsing, rounding and printing
    give back the table's own string: the returned amperage is the
    entry of the table, character for character. *)
Theorem untouched_range_round_trips (i : Inputs.t) (range : string) :
  range_of (Inputs.electrodeSize i) (Inputs.electrode i) = Some range ->
  Inputs.metalThickness i <> Thin -> Inputs.metalThickness i <> Thick ->
  Inputs.position i <> "Vertical Up" -> Inputs.position i <> "Overhead" ->
  exists r, getRecommendations i = JS.Normal r /\ amperage r = range.
Proof.
  intros Hrange Hthin Hthick Hup Hover.
  destruct (getRecommendations_amperage i range Hrange) as (r & Hret & Hamp).
  exists r. split; [ exact Hret | ]. rewrite Hamp.
  assert (E : roundedRange range (Inputs.metalThickness i) (Inputs.position i)
              = roundedRange range Medium "Flat").
  { unfold roundedRange, adjustedRange.
    rewrite (adjustThickness_other _ _ Hthin Hthick).
    rewrite (adjustThickness_other Medium) by (cbn; discriminate).
    rewrite (adjustPosition_other _ _ Hup Hover).
    now rewrite (adjustPosition_other "Flat") by discriminate. }
  rewrite E.
  pose proof (proj1 (forallb_forall _ _) all_round_trip _
                (range_of_table _ _ _ Hrange)) as H1.
  cbn [snd] in H1. now apply String.eqb_eq in H1.
Qed.

(** X18 on a corner joint welded vertically down with an E6011. *)
Lemma untouched_range_round_trips_witness :
  range_of (Inputs.electrodeSize corner_down) (Inputs.electrode corner_down)
  = Some "75-130A" /\
  exists r, getRecommendations corner_down = JS.Normal r /\
            amperage r = "75-130A".
Proof.
  assert (H1 : Inputs.metalThickness corner_down <> Thin)
    by (cbn; discriminate).
  assert (H2 : Inputs.metalThickness corner_down <> Thick)
    by (cbn; discriminate).
  assert (H3 : Inputs.position corner_down <> "Vertical Up")
    by (cbn; discriminate).
  assert (H4 : Inputs.position corner_down <> "Overhead")
    by (cbn; discriminate).
  exact (conj eq_refl
           (untouched_range_round_trips corner_down "75-130A" eq_refl
              H1 H2 H3 H4)).
Defined.

Lemma formatRange_not_empty (bounds : JS.rounded * JS.rounded) :
  formatRange bounds <> EmptyString.
Proof.
  unfold formatRange. destruct (JS.to_string (fst bounds)); cbn; discriminate.
Qed.

(** X19.  Whenever the engine returns, the amperage is unset exactly
    when the size and the electrode are not both keys of the amperage
    tables. *)
Theorem amperage_unset_iff (i : Inputs.t) (r : recommendations) :
  getRecommendations i = JS.Normal r ->
  (amperage r = EmptyString <->
   range_of (Inputs.electrodeSize i) (Inputs.electrode i) = None).
Proof.
  intros Hret.
  destruct (range_of (Inputs.electrodeSize i) (Inputs.electrode i))
    as [range|] eqn:Hrange.
  - destruct (getRecommendations_amperage i range Hrange)
      as (r' & Hret' & Hamp).
    assert (r' = r) as -> by congruence.
    split; [ | intros H; discriminate H ].
    intros H. rewrite Hamp in H. now apply formatRange_not_empty in H.
  - split; [ reflexivity | intros _ ].
    destruct (prototype_hit i) eqn:Hhit.
    + apply getRecommendations_throws in Hhit. congruence.
    + destruct (unknown_keys_leave_amperage_unset i Hrange Hhit)
        as (r' & Hret' & Hamp).
      congruence.
Qed.

(** X19 on the unknown electrode E9999. *)
Lemma amperage_unset_iff_witness :
  getRecommendations unknown_rod = JS.Normal unknown_rod_result /\
  range_of (Inputs.electrodeSize unknown_rod) (Inputs.electrode unknown_rod)
  = None.
Proof.
  assert (Hret : getRecommendations unknown_rod = JS.Normal unknown_rod_result)
    by (vm_compute; reflexivity).
  exact (conj Hret
           (proj1 (amperage_unset_iff unknown_rod unknown_rod_result Hret)
              eq_refl)).
Defined.

(** *** The control panel *)

Lemma offered_pair_in_tables (size electrode : string) :
  In size WeldingKnowledgeVisualization.electrodeSize_options ->
  In electrode WeldingKnowledgeVisualization.electrode_options ->
  exists range, range_of size electrode = Some range.
Proof.
  intros Hs He. cbn in Hs, He.
  repeat destruct Hs as [Hs | Hs]; try contradiction; subst size;
    repeat destruct He as [He | He]; try contradiction; subst electrode;
    eexists; reflexivity.
Qed.

(** X20.  The amperage tables are complete: every electrode size
    lists an amperage range for exactly the electrodes of the
    [electrodes] table, in the same order. *)
Theorem amperage_tables_complete (size : string) (sizeData : SizeData.t) :
  JS.own electrodeSize size = Some sizeData ->
  JS.keys (SizeData.amperage sizeData) = JS.keys electrodes.
Proof.
  unfold electrodeSize, JS.own.
  destruct (String.eqb size size_3_32); [ intros [= <-]; reflexivity | ].
  destruct (String.eqb size size_1_8); [ intros [= <-]; reflexivity | ].
  destruct (String.eqb size size_5_32); [ intros [= <-]; reflexivity | ].
  discriminate.
Qed.

(** X20 on the 1/8 inch size. *)
Lemma amperage_tables_complete_witness :
  exists sizeData,
    JS.own electrodeSize size_1_8 = Some sizeData /\
    JS.keys (SizeData.amperage sizeData) = JS.keys electrodes.
Proof.
  eexists. split; [ reflexivity | ].
  exact (amperage_tables_complete size_1_8 _ eq_refl).
Defined.

(** X21.  Every snapshot the control panel can produce is fully
    answered: when each parameter is one of the choices its controller
    offers, the engine returns, and the amperage, the arc gap, the rod
    angle and the motion pattern are all set. *)
Theorem offered_snapshot_fully_answered (p : Inputs.t) :
  offered p = true ->
  exists r,
    getRecommendations p = JS.Normal r /\
    amperage r <> EmptyString /\ arcGap r <> EmptyString /\
    rodAngle r <> EmptyString /\ motionPattern r <> [].
Proof.
  unfold offered. intros H.
  apply andb_prop in H as (H & _). apply andb_prop in H as (H & _).
  apply andb_prop in H as (H & _). apply andb_prop in H as (H & _).
  apply andb_prop in H as (H & _). apply andb_prop in H as (H & Hj).
  apply andb_prop in H as (H & _). apply andb_prop in H as (H & Hp).
  apply andb_prop in H as (He & Hs).
  apply mem_In in He, Hs, Hp, Hj.
  destruct (offered_pair_in_tables _ _ Hs He) as (range & Hrange).
  destruct (getRecommendations_amperage p range Hrange) as (r & Hret & Hamp).
  exists r. split; [ exact Hret | ].
  split; [ rewrite Hamp; apply formatRange_not_empty | ].
  rewrite (returned_arcGap p r Hret), (returned_rodAngle p r Hret),
    (returned_motionPattern p r Hret).
  unfold electrodeStep, positionStep, rodAngleStep.
  cbn in He, Hp, Hj.
  repeat destruct He as [He | He]; try contradiction; rewrite <- He;
    repeat destruct Hp as [Hp | Hp]; try contradiction; rewrite <- Hp;
    (split; [ cbn; discriminate | ]);
    (split; [ | cbn; discriminate ]);
    repeat destruct Hj as [Hj | Hj]; try contradiction; rewrite <- Hj;
    cbn; discriminate.
Qed.

(** X21 on the parameters the visualization starts from. *)
Lemma offered_snapshot_fully_answered_witness :
  offered WeldingKnowledgeVisualization.params = true /\
  exists r,
    getRecommendations WeldingKnowledgeVisualization.params = JS.Normal r /\
    amperage r <> EmptyString /\ arcGap r <> EmptyString /\
    rodAngle r <> EmptyString /\ motionPattern r <> [].
Proof.
  exact (conj eq_refl
           (offered_snapshot_fully_answered
              WeldingKnowledgeVisualization.params eq_refl)).
Defined.

(** *** The simulated observations *)

Lemma mod3_cases (n : Z) : n mod 3 = 0 \/ n mod 3 = 1 \/ n mod 3 = 2.
Proof. pose proof (Z.mod_pos_bound n 3 ltac:(lia)). lia. Qed.

Lemma next_index (n : nat) :
  Z.rem (Z.of_nat n mod 3 + 1) 3 = Z.of_nat (S n) mod 3.
Proof.
  pose proof (Z.mod_pos_bound (Z.of_nat n) 3 ltac:(lia)) as Hk.
  rewrite Z.rem_mod_nonneg by lia.
  rewrite Nat2Z.inj_succ, <- Z.add_1_r.
  now rewrite Z.add_mod_idemp_l by lia.
Qed.

(** The state of the simulation after one run of the callback or more. *)
Lemma ticks_closed_form (p : Inputs.t) (n : nat) :
  WeldingKnowledgeVisualization.ticks (S n)
    (WeldingKnowledgeVisualization.start p)
  = {| WeldingKnowledgeVisualization.sim_params :=
         simulated p (Z.of_nat (S n) mod 3);
       WeldingKnowledgeVisualization.currentIndex := Z.of_nat (S n) mod 3 |}.
Proof.
  induction n as [|n IH].
  - reflexivity.
  - change (WeldingKnowledgeVisualization.ticks (S (S n))
              (WeldingKnowledgeVisualization.start p))
      with (WeldingKnowledgeVisualization.tick
              (WeldingKnowledgeVisualization.ticks (S n)
                 (WeldingKnowledgeVisualization.start p))).
    rewrite IH. unfold WeldingKnowledgeVisualization.tick.
    cbn [WeldingKnowledgeVisualization.sim_params
         WeldingKnowledgeVisualization.currentIndex].
    rewrite next_index.
    destruct (mod3_cases (Z.of_nat (S (S n)))) as [-> | [-> | ->]];
      reflexivity.
Qed.

(** X22.  After [n >= 1] runs of the timer callback of
    [simulateRealTimeInput] the counter is [n mod 3], the puddle, spread
    and tie-in observations are the entries [n mod 3], [(n + 1) mod 3]
    and [(n + 2) mod 3] of their three-state lists, and every other
    parameter, the arc stability included, is what it was; so the
    simulation repeats with period 3. *)
Theorem simulation_cycles (p : Inputs.t) (n : nat) :
  WeldingKnowledgeVisualization.ticks (S n)
    (WeldingKnowledgeVisualization.start p)
  = {| WeldingKnowledgeVisualization.sim_params :=
         simulated p (Z.of_nat (S n) mod 3);
       WeldingKnowledgeVisualization.currentIndex := Z.of_nat (S n) mod 3 |}
  /\
  WeldingKnowledgeVisualization.ticks (S n + 3)
    (WeldingKnowledgeVisualization.start p)
  = WeldingKnowledgeVisualization.ticks (S n)
      (WeldingKnowledgeVisualization.start p).
Proof.
  split; [ apply ticks_closed_form | ].
  replace (S n + 3)%nat with (S (n + 3)) by lia.
  rewrite !ticks_closed_form.
  replace (Z.of_nat (S (n + 3))) with (Z.of_nat (S n) + 1 * 3) by lia.
  now rewrite Z.mod_add by lia.
Qed.

(** The simulated snapshot for a counter of 0, 1 or 2 is offered by the
    control panel when the snapshot it starts from is. *)
Lemma simulated_offered (p : Inputs.t) (k : Z) :
  k = 0 \/ k = 1 \/ k = 2 -> offered p = true -> offered (simulated p k) = true.
Proof.
  unfold offered. intros Hk H.
  apply andb_prop in H as (H & Hst). apply andb_prop in H as (H & _).
  apply andb_prop in H as (H & _). apply andb_prop in H as (H & _).
  cbn [simulated Inputs.electrode Inputs.electrodeSize Inputs.position
       Inputs.metalThickness Inputs.jointType Inputs.machineType
       Inputs.observedPuddle Inputs.observedSpread Inputs.observedTieIn
       Inputs.observedStability].
  rewrite H, Hst. destruct Hk as [-> | [-> | ->]]; reflexivity.
Qed.

(** X23.  The simulation only ever holds snapshots the control panel
    could have produced: started from an offered snapshot, the snapshot
    after any number of runs of the callback is offered as well. *)
Theorem simulation_stays_offered (p : Inputs.t) (n : nat) :
  offered p = true ->
  offered
    (WeldingKnowledgeVisualization.sim_params
       (WeldingKnowledgeVisualization.ticks n
          (WeldingKnowledgeVisualization.start p))) = true.
Proof.
  intros Hp. destruct n as [|n]; [ exact Hp | ].
  rewrite ticks_closed_form.
  apply simulated_offered; [ apply mod3_cases | exact Hp ].
Qed.

(** X23 on the parameters the visualization starts from, after seven
    runs of the callback. *)
Lemma simulation_stays_offered_witness :
  offered WeldingKnowledgeVisualization.params = true /\
  offered
    (WeldingKnowledgeVisualization.sim_params
       (WeldingKnowledgeVisualization.ticks 7
          (WeldingKnowledgeVisualization.start
             WeldingKnowledgeVisualization.params))) = true.
Proof.
  exact (conj eq_refl
           (simulation_stays_offered WeldingKnowledgeVisualization.params 7
              eq_refl)).
Defined.

(** X24.  With an electrode other than E7018 and an arc not observed
    Unstable, the adjustments the display is updated with after [n >= 1]
    runs of the callback are those of the phase [n mod 3]: the message
    on heat alone, or the two on narrowing the puddle and on the edge
    tie-in, or the two on reducing heat and on widening the puddle.
    They are never empty and never all three kinds at once. *)
Theorem simulation_adjustments
  (p : Inputs.t) (n : nat) (r : recommendations) :
  Inputs.electrode p <> "E7018" -> stability_of p <> "Unstable" ->
  WeldingKnowledgeVisualization.updateRecommendations
    (WeldingKnowledgeVisualization.ticks (S n)
       (WeldingKnowledgeVisualization.start p))
  = JS.Normal r ->
  adjustments r = phase_messages (Z.of_nat (S n) mod 3) /\
  (1 <= List.length (adjustments r) <= 2)%nat.
Proof.
  intros He Hs. rewrite ticks_closed_form.
  unfold WeldingKnowledgeVisualization.updateRecommendations.
  cbn [WeldingKnowledgeVisualization.sim_params].
  set (k := Z.of_nat (S n) mod 3). intros Hret.
  rewrite (returned_adjustments _ r Hret).
  assert (E : adjustments (electrodeStep (simulated p k) initial)
              = adjustments initial).
  { rewrite electrodeStep_adjustments.
    cbn [simulated Inputs.electrode]. other_key He. reflexivity. }
  rewrite (observationStep_ext _ _ _ E).
  unfold observationStep, stability_of in *.
  cbn [simulated Inputs.electrode Inputs.machineType Inputs.observedPuddle
       Inputs.observedSpread Inputs.observedTieIn Inputs.observedStability].
  other_key Hs.
  destruct (mod3_cases (Z.of_nat (S n))) as [Hk | [Hk | Hk]];
    fold k in Hk; rewrite Hk; vm_compute; (split; [ reflexivity | lia ]).
Qed.

(** X24 on the parameters the visualization starts from, after two runs
    of the callback: the advice is to reduce heat and to widen the
    puddle. *)
Lemma simulation_adjustments_witness :
  Inputs.electrode WeldingKnowledgeVisualization.params <> "E7018" /\
  stability_of WeldingKnowledgeVisualization.params <> "Unstable" /\
  WeldingKnowledgeVisualization.updateRecommendations
    (WeldingKnowledgeVisualization.ticks 2
       (WeldingKnowledgeVisualization.start
          WeldingKnowledgeVisualization.params))
  = JS.Normal
      {| amperage := "75-130A"; arcGap := "Medium";
         rodAngle := "Perpendicular"; travelSpeed := EmptyString;
         motionPattern := ["Circular"; "Zigzag"; "Whip/Step"];
         adjustments := phase_messages 2 |} /\
  adjustments
    {| amperage := "75-130A"; arcGap := "Medium";
       rodAngle := "Perpendicular"; travelSpeed := EmptyString;
       motionPattern := ["Circular"; "Zigzag"; "Whip/Step"];
       adjustments := phase_messages 2 |}
  = phase_messages (Z.of_nat 2 mod 3).
Proof.
  assert (He : Inputs.electrode WeldingKnowledgeVisualization.params
               <> "E7018") by (cbn; discriminate).
  assert (Hs : stability_of WeldingKnowledgeVisualization.params
               <> "Unstable") by (cbn; discriminate).
  assert (Hret : WeldingKnowledgeVisualization.updateRecommendations
                   (WeldingKnowledgeVisualization.ticks 2
                      (WeldingKnowledgeVisualization.start
                         WeldingKnowledgeVisualization.params))
                 = JS.Normal
                     {| amperage := "75-130A"; arcGap := "Medium";
                        rodAngle := "Perpendicular";
                        travelSpeed := EmptyString;
                        motionPattern := ["Circular"; "Zigzag"; "Whip/Step"];
                        adjustments := phase_messages 2 |})
    by (vm_compute; reflexivity).
  exact (conj He (conj Hs (conj Hret
           (proj1 (simulation_adjustments
                     WeldingKnowledgeVisualization.params 1 _ He Hs Hret))))).
Defined.

(** *** When the engine throws *)

Lemma inherited_In (k : string) :
  JS.inherited k = true <-> In k JS.Object_prototype.
Proof. exact (mem_In k JS.Object_prototype). Qed.

Lemma own_keys {A : Type} (o : JS.object A) (k : string) :
  In k (JS.keys o) <-> JS.own o k <> None.
Proof.
  induction o as [|[k' a] rest IH]; cbn.
  - split; [ intros [] | intros H; now apply H ].
  - destruct (String.eqb_spec k k') as [-> | Hne].
    + split; [ discriminate | now left ].
    + rewrite <- IH.
      split; [ intros [H | H]; [ congruence | exact H ] | now right ].
Qed.

(** X25.  The engine throws a [TypeError] in exactly two situations:
    the electrode size is a name every object inherits from
    [Object.prototype], or the electrode size is a key of the table and
    the electrode is such an inherited name.  Any other key, known or
    unknown, makes it return. *)
Theorem throws_iff_inherited_key (i : Inputs.t) :
  getRecommendations i = JS.TypeError <->
  In (Inputs.electrodeSize i) JS.Object_prototype \/
  (In (Inputs.electrodeSize i) (JS.keys electrodeSize) /\
   In (Inputs.electrode i) JS.Object_prototype).
Proof.
  rewrite getRecommendations_throws. unfold prototype_hit, JS.get.
  rewrite <- !inherited_In, own_keys.
  assert (Hsizes : forall d,
             JS.own electrodeSize (Inputs.electrodeSize i) = Some d ->
             JS.inherited (Inputs.electrodeSize i) = false /\
             forall range,
               JS.own (SizeData.amperage d) (Inputs.electrode i) = Some range ->
               JS.inherited (Inputs.electrode i) = false).
  { intros d. unfold electrodeSize, JS.own.
    destruct (String.eqb_spec (Inputs.electrodeSize i) size_3_32)
      as [-> | _];
      [ | destruct (String.eqb_spec (Inputs.electrodeSize i) size_1_8)
            as [-> | _];
          [ | destruct (String.eqb_spec (Inputs.electrodeSize i) size_5_32)
                as [-> | _]; [ | discriminate ] ] ];
      intros [= <-]; (split; [ reflexivity | ]);
      cbn [SizeData.amperage]; intros range;
      repeat match goal with
        | |- context [String.eqb (Inputs.electrode i) ?k] =>
            destruct (String.eqb_spec (Inputs.electrode i) k) as [-> | _]
        end; intros H; try discriminate H; reflexivity. }
  destruct (JS.own electrodeSize (Inputs.electrodeSize i)) as [d|] eqn:Hsz.
  - destruct (Hsizes d eq_refl) as (Hni & Hel). rewrite Hni.
    destruct (JS.own (SizeData.amperage d) (Inputs.electrode i))
      as [range|] eqn:Hr.
    + rewrite (Hel range eq_refl).
      split; [ discriminate | intros [H | (_ & H)]; discriminate H ].
    + destruct (JS.inherited (Inputs.electrode i)).
      * split; [ intros _; right; split; [ discriminate | reflexivity ]
               | reflexivity ].
      * split; [ discriminate | intros [H | (_ & H)]; discriminate H ].
  - destruct (JS.inherited (Inputs.electrodeSize i)).
    + split; [ intros _; now left | reflexivity ].
    + split; [ discriminate | ].
      intros [H | (H & _)]; [ discriminate H | exfalso; now apply H ].
Qed.
